(** * Request correlation and middleware chaining of the go-api example

    A shallow embedding of [pkg/logger], [pkg/tracing] and [pkg/middleware]
    of the go-api example service.  Handlers are state-passing functions that
    may panic; the state holds everything a request can touch: the
    transport's response, the heap cells of the [responseWriter] wrappers,
    the events handed to zerolog, the Prometheus collectors, the attributes
    given to the active span, the clock and the random source behind
    [uuid.New]. *)

From Stdlib Require Import ZArith NArith String Ascii List Lia Bool DecimalString.
From stdpp Require Import gmap strings list fin_maps.
From Stdlib Require DecimalPos.

(** ** Values of type [interface{}] that the middleware passes around *)

Inductive Any :=
  | AStr (s : string)   (* string *)
  | AInt (z : Z)        (* int, int64 *)
  | AErr (msg : string) (* error, runtime.Error *).

Definition is_empty (s : string) : bool :=
  match s with EmptyString => true | String _ _ => false end.

(** ** Fixed-size byte arrays, kept as big-endian numbers *)

Definition hextable : string := "0123456789abcdef".

Definition hexdigit (n : N) : ascii :=
  match String.get (N.to_nat n) hextable with
  | Some c => c
  | None => "0"%char
  end.

(** Byte [i] of an [n]-byte array stored big-endian in [x]. *)
Definition byte_at (n : nat) (x : N) (i : nat) : N :=
  N.land (N.shiftr x (8 * N.of_nat (n - 1 - i))) 255.

Definition bytes_of (n : nat) (x : N) : list N :=
  map (byte_at n x) (seq 0 n).

Definition hex_byte (b : N) : string :=
  String (hexdigit (N.shiftr b 4)) (String (hexdigit (N.land b 15)) EmptyString).

(** hex.EncodeToString *)
Fixpoint hex_encode (bs : list N) : string :=
  match bs with
  | [] => EmptyString
  | b :: bs' => hex_byte b +:+ hex_encode bs'
  end.

(** ** github.com/google/uuid *)

(** A [uuid.UUID] is a [[16]byte]. [uuid_of_random] is what [uuid.New] does to
    sixteen random bytes: version 4 in byte 6, variant 10 in byte 8. *)
Definition uuid_of_random (raw : N) : N :=
  let u := N.land raw (N.ones 128) in
  let version_mask := N.shiftl 240 72 in   (* uuid[6] & 0x0f *)
  let variant_mask := N.shiftl 192 56 in   (* uuid[8] & 0x3f *)
  N.lor (N.ldiff u (N.lor version_mask variant_mask))
        (N.lor (N.shiftl 64 72) (N.shiftl 128 56)).

(** [UUID.String]: xxxxxxxx-xxxx-xxxx-xxxx-xxxxxxxxxxxx *)
Definition uuid_String (u : N) : string :=
  let b := bytes_of 16 u in
  hex_encode (firstn 4 b) +:+ "-" +:+
  hex_encode (firstn 2 (skipn 4 b)) +:+ "-" +:+
  hex_encode (firstn 2 (skipn 6 b)) +:+ "-" +:+
  hex_encode (firstn 2 (skipn 8 b)) +:+ "-" +:+
  hex_encode (skipn 10 b).

(** ** go.opentelemetry.io/otel/trace: the span context carried by a request *)

Record SpanContext := {
  sc_TraceID : N;  (* [16]byte *)
  sc_SpanID : N    (* [8]byte *)
}.

(** [trace.SpanFromContext] of a context without a span: all-zero ids. *)
Definition noSpan : SpanContext := {| sc_TraceID := 0; sc_SpanID := 0 |}.

Definition nonzero (b : N) : bool := negb (N.eqb b 0).

Definition HasTraceID (sc : SpanContext) : bool :=
  existsb nonzero (bytes_of 16 (sc_TraceID sc)).

Definition HasSpanID (sc : SpanContext) : bool :=
  existsb nonzero (bytes_of 8 (sc_SpanID sc)).

Definition TraceID_String (sc : SpanContext) : string :=
  hex_encode (bytes_of 16 (sc_TraceID sc)).

Definition SpanID_String (sc : SpanContext) : string :=
  hex_encode (bytes_of 8 (sc_SpanID sc)).

(** ** context.Context *)

(** The chain built by [context.WithValue], innermost binding first, and the
    span that the tracer stored under its own key. *)
Record Context := {
  ctx_values : list (string * Any);
  ctx_span : SpanContext
}.

Definition context_WithValue (ctx : Context) (key : string) (val : Any) : Context :=
  {| ctx_values := (key, val) :: ctx_values ctx; ctx_span := ctx_span ctx |}.

Fixpoint chain_Value (vs : list (string * Any)) (key : string) : option Any :=
  match vs with
  | [] => None
  | (k, v) :: vs' => if String.eqb k key then Some v else chain_Value vs' key
  end.

Definition context_Value (ctx : Context) (key : string) : option Any :=
  chain_Value (ctx_values ctx) key.

(** ** net/http: requests *)

Record Request := {
  Method : string;
  URL_Path : string;
  Header : gmap string (list string);
  RemoteAddr : string;
  req_Context : Context
}.

(** [Header.Get]: first value stored under the key, or the empty string.
    [Get] and [Set] bring the key into the same canonical form before they use
    it, so a key is written here the way the source spells it. *)
Definition Header_Get (h : gmap string (list string)) (key : string) : string :=
  match h !! key with
  | Some (v :: _) => v
  | _ => EmptyString
  end.

(** [Header.Set]: the key now holds exactly this one value. *)
Definition Header_Set (h : gmap string (list string)) (key value : string)
  : gmap string (list string) :=
  <[key := [value]]> h.

Definition UserAgent (r : Request) : string := Header_Get (Header r) "User-Agent".

Definition Request_WithContext (r : Request) (ctx : Context) : Request :=
  {| Method := Method r; URL_Path := URL_Path r; Header := Header r;
     RemoteAddr := RemoteAddr r; req_Context := ctx |}.


(** ** github.com/rs/zerolog: what the service hands to its logger *)

Inductive Level := DebugLevel | InfoLevel | WarnLevel | ErrorLevel | FatalLevel.

(** A [zerolog.Logger] as far as the service shapes it: the fields that
    [With()] has accumulated, in the order they were added.  zerolog appends
    each field to the record it builds and never looks for an earlier field
    with the same key. *)
Record zerolog_Logger := { zl_context : list (string * Any) }.

Definition zerolog_Str (l : zerolog_Logger) (key val : string) : zerolog_Logger :=
  {| zl_context := zl_context l ++ [(key, AStr val)] |}.

Definition zerolog_Interface (l : zerolog_Logger) (key : string) (val : Any)
  : zerolog_Logger :=
  {| zl_context := zl_context l ++ [(key, val)] |}.

(** [Err(err)]: the field "error" with the error's text; a nil error adds
    nothing. *)
Definition zerolog_Err (l : zerolog_Logger) (err : option string) : zerolog_Logger :=
  match err with
  | Some text => {| zl_context := zl_context l ++ [("error", AErr text)] |}
  | None => l
  end.

(** One record handed to the sink by [Msg].  The level threshold chosen in
    [logger.New] and the timestamp and caller hooks are applied by zerolog
    after this point. *)
Record LogEvent := {
  ev_level : Level;
  ev_msg : string;
  ev_fields : list (string * Any)
}.

(** ** github.com/prometheus/client_golang: the four collectors *)

(** The collectors that [main] registers once and shares with every
    middleware through [*Metrics].  The gauge moves in steps of one, so its
    value is kept as an integer; an observation is kept as the
    [time.Duration] (nanoseconds) it was computed from. *)
Record Collectors := {
  RequestsTotal : gmap (string * string * string) nat; (* method, path, status *)
  RequestDuration : gmap (string * string) (list Z);   (* method, path *)
  RequestsInFlight : Z;
  PanicRecoveries : nat
}.

(** ** net/http: the response under construction *)

(** Calls that reached the transport's writer. *)
Inductive WriterCall :=
  | CallWriteHeader (code : Z)
  | CallWrite (data : string).

Record Response := {
  resp_header : gmap string (list string);
  resp_calls : list WriterCall
}.

(** The status line the client receives is fixed by the first call: an
    explicit [WriteHeader], or a [Write], which implies 200.  Interim 1xx
    headers are left out. *)
Definition sent_status (resp : Response) : option Z :=
  match resp_calls resp with
  | [] => None
  | CallWriteHeader code :: _ => Some code
  | CallWrite _ :: _ => Some 200%Z
  end.

Definition wroteHeader (resp : Response) : bool :=
  match resp_calls resp with [] => false | _ :: _ => true end.

(** ** The state a request runs in *)

Record State := {
  st_resp : Response;           (* the transport's http.ResponseWriter *)
  st_heap : list Z;             (* statusCode of each allocated responseWriter *)
  st_logs : list LogEvent;      (* events handed to zerolog, oldest first *)
  st_metrics : Collectors;
  st_attrs : list (string * Any); (* attributes given to the span, oldest first *)
  st_now : Z;                   (* monotonic clock, nanoseconds *)
  st_entropy : nat -> N;        (* the random reader behind uuid.New *)
  st_draws : nat;               (* how many times it has been read *)
  st_stack : string             (* what runtime.Stack would print *)
}.

Definition upd_resp (f : Response -> Response) (s : State) : State :=
  {| st_resp := f (st_resp s); st_heap := st_heap s; st_logs := st_logs s;
     st_metrics := st_metrics s; st_attrs := st_attrs s; st_now := st_now s;
     st_entropy := st_entropy s; st_draws := st_draws s; st_stack := st_stack s |}.

Definition upd_heap (f : list Z -> list Z) (s : State) : State :=
  {| st_resp := st_resp s; st_heap := f (st_heap s); st_logs := st_logs s;
     st_metrics := st_metrics s; st_attrs := st_attrs s; st_now := st_now s;
     st_entropy := st_entropy s; st_draws := st_draws s; st_stack := st_stack s |}.

Definition upd_logs (f : list LogEvent -> list LogEvent) (s : State) : State :=
  {| st_resp := st_resp s; st_heap := st_heap s; st_logs := f (st_logs s);
     st_metrics := st_metrics s; st_attrs := st_attrs s; st_now := st_now s;
     st_entropy := st_entropy s; st_draws := st_draws s; st_stack := st_stack s |}.

Definition upd_metrics (f : Collectors -> Collectors) (s : State) : State :=
  {| st_resp := st_resp s; st_heap := st_heap s; st_logs := st_logs s;
     st_metrics := f (st_metrics s); st_attrs := st_attrs s; st_now := st_now s;
     st_entropy := st_entropy s; st_draws := st_draws s; st_stack := st_stack s |}.

Definition upd_attrs (f : list (string * Any) -> list (string * Any)) (s : State)
  : State :=
  {| st_resp := st_resp s; st_heap := st_heap s; st_logs := st_logs s;
     st_metrics := st_metrics s; st_attrs := f (st_attrs s); st_now := st_now s;
     st_entropy := st_entropy s; st_draws := st_draws s; st_stack := st_stack s |}.

Definition upd_draws (f : nat -> nat) (s : State) : State :=
  {| st_resp := st_resp s; st_heap := st_heap s; st_logs := st_logs s;
     st_metrics := st_metrics s; st_attrs := st_attrs s; st_now := st_now s;
     st_entropy := st_entropy s; st_draws := f (st_draws s); st_stack := st_stack s |}.

(** ** Computations that may panic *)

Inductive Result (A : Type) :=
  | Ret (a : A)
  | Panic (v : Any).
Arguments Ret {A} a.
Arguments Panic {A} v.

Definition M (A : Type) : Type := State -> Result A * State.

Definition ret {A} (a : A) : M A := fun s => (Ret a, s).

Definition bind {A B} (c : M A) (k : A -> M B) : M B :=
  fun s =>
    match c s with
    | (Ret a, s') => k a s'
    | (Panic v, s') => (Panic v, s')
    end.

Definition panic {A} (v : Any) : M A := fun s => (Panic v, s).

Definition get {A} (f : State -> A) : M A := fun s => (Ret (f s), s).

Definition modify (f : State -> State) : M unit := fun s => (Ret tt, f s).

Declare Scope go_scope.
Delimit Scope go_scope with go.
Notation "x <- c ;; k" := (bind c (fun x => k))
  (at level 100, c at next level, right associativity) : go_scope.
Notation "c ;; k" := (bind c (fun _ => k))
  (at level 100, right associativity) : go_scope.
Local Open Scope go_scope.

(** [defer cleanup()] around [body]: the cleanup runs on return and on panic,
    and a panic of the body goes on unwinding afterwards. *)
Definition defer {A} (cleanup : M unit) (body : M A) : M A :=
  fun s =>
    match body s with
    | (r, s') =>
        match cleanup s' with
        | (Ret _, s'') => (r, s'')
        | (Panic v, s'') => (Panic v, s'')
        end
    end.

(** [defer func() { err := recover(); ... }()] around [body]: the deferred
    function sees [None] after a normal return and the panic value after a
    panic, which [recover] has stopped; the enclosing function then returns
    normally unless the deferred function panics itself.  A recovered value
    is never nil: the runtime delivers [panic(nil)] as a
    [*runtime.PanicNilError]. *)
Definition defer_recover (deferred : option Any -> M unit) (body : M unit) : M unit :=
  fun s =>
    match body s with
    | (Ret _, s') => deferred None s'
    | (Panic v, s') => deferred (Some v) s'
    end.

(** [time.Now] and [time.Since] *)
Definition time_Now : M Z := get st_now.
Definition time_Since (start : Z) : M Z := get (fun s => (st_now s - start)%Z).

(** [Duration.Milliseconds] *)
Definition Milliseconds (d : Z) : Z := Z.quot d 1000000.

(** [uuid.New()]: sixteen fresh random bytes, stamped as a version 4 UUID. *)
Definition uuid_New : M N :=
  fun s => (Ret (uuid_of_random (st_entropy s (st_draws s))), upd_draws S s).

(** [runtime.Stack(buf, false)] into a 4096-byte buffer *)
Definition runtime_Stack : M string :=
  get (fun s => String.substring 0 4096 (st_stack s)).

(** [Msg] on an event of the given level *)
Definition zerolog_Msg (l : zerolog_Logger) (lvl : Level) (msg : string) : M unit :=
  modify (upd_logs (fun evs =>
    evs ++ [{| ev_level := lvl; ev_msg := msg; ev_fields := zl_context l |}])).

(** [span.SetAttributes] on the span of the request's context *)
Definition span_SetAttributes (attrs : list (string * Any)) : M unit :=
  modify (upd_attrs (fun old => old ++ attrs)).

(** ** net/http: the ResponseWriter interface *)

Record ResponseWriter := {
  Header_Set_on : string -> string -> M unit;   (* w.Header().Set(k, v) *)
  WriteHeader : Z -> M unit;
  Write : string -> M unit
}.

(** The transport's own writer.  A first [WriteHeader] with a code outside
    100..999 panics; a later one is superfluous: the call is made, and the
    server ignores it (see [sent_status]). *)
Definition transport_WriteHeader (code : Z) : M unit :=
  fun s =>
    if negb (wroteHeader (st_resp s)) && ((code <? 100) || (999 <? code))%Z then
      (Panic (AErr "invalid WriteHeader code"), s)
    else
      (Ret tt, upd_resp (fun resp =>
         {| resp_header := resp_header resp;
            resp_calls := resp_calls resp ++ [CallWriteHeader code] |}) s).

Definition transport_Write (data : string) : M unit :=
  modify (upd_resp (fun resp =>
    {| resp_header := resp_header resp;
       resp_calls := resp_calls resp ++ [CallWrite data] |})).

Definition transport_Header_Set (key value : string) : M unit :=
  modify (upd_resp (fun resp =>
    {| resp_header := Header_Set (resp_header resp) key value;
       resp_calls := resp_calls resp |})).

Definition transport : ResponseWriter :=
  {| Header_Set_on := transport_Header_Set;
     WriteHeader := transport_WriteHeader;
     Write := transport_Write |}.

(** [http.Error]: plain-text headers, the status, then the message and a
    newline. *)
Definition http_Error (w : ResponseWriter) (error : string) (code : Z) : M unit :=
  Header_Set_on w "Content-Type" "text/plain; charset=utf-8";;
  Header_Set_on w "X-Content-Type-Options" "nosniff";;
  WriteHeader w code;;
  Write w (error +:+ String "010"%char EmptyString).

Definition Handler : Type := ResponseWriter -> Request -> M unit.

(** [fmt.Sprintf("%d", n)] *)
Definition Sprintf_d (n : Z) : string := NilZero.string_of_int (Z.to_int n).

(** ** Operations on the collectors *)

Definition CounterVec_Inc (labels : string * string * string) : M unit :=
  modify (upd_metrics (fun c =>
    {| RequestsTotal :=
         <[labels := S (default 0%nat (RequestsTotal c !! labels))]> (RequestsTotal c);
       RequestDuration := RequestDuration c;
       RequestsInFlight := RequestsInFlight c;
       PanicRecoveries := PanicRecoveries c |})).

Definition HistogramVec_Observe (labels : string * string) (d : Z) : M unit :=
  modify (upd_metrics (fun c =>
    {| RequestsTotal := RequestsTotal c;
       RequestDuration :=
         <[labels := default [] (RequestDuration c !! labels) ++ [d]]> (RequestDuration c);
       RequestsInFlight := RequestsInFlight c;
       PanicRecoveries := PanicRecoveries c |})).

Definition Gauge_Add (delta : Z) : M unit :=
  modify (upd_metrics (fun c =>
    {| RequestsTotal := RequestsTotal c;
       RequestDuration := RequestDuration c;
       RequestsInFlight := (RequestsInFlight c + delta)%Z;
       PanicRecoveries := PanicRecoveries c |})).

Definition Gauge_Inc : M unit := Gauge_Add 1.
Definition Gauge_Dec : M unit := Gauge_Add (-1).

Definition Counter_Inc : M unit :=
  modify (upd_metrics (fun c =>
    {| RequestsTotal := RequestsTotal c;
       RequestDuration := RequestDuration c;
       RequestsInFlight := RequestsInFlight c;
       PanicRecoveries := S (PanicRecoveries c) |})).

(** ** pkg/logger *)

Module logger.

Definition RequestIDKey : string := "request_id".
Definition TraceIDKey : string := "trace_id".
Definition SpanIDKey : string := "span_id".
Definition UserIDKey : string := "user_id".

Record Logger := { zlog : zerolog_Logger }.

(** One [if v, ok := ctx.Value(key).(string); ok && v != ""] step of
    [WithContext]. *)
Definition add_ctx_field (ctx : Context) (key : string) (name : string)
    (event : zerolog_Logger) : zerolog_Logger :=
  match context_Value ctx key with
  | Some (AStr v) => if is_empty v then event else zerolog_Str event name v
  | _ => event
  end.

Definition WithContext (l : Logger) (ctx : Context) : zerolog_Logger :=
  let event := zlog l in
  let event := add_ctx_field ctx RequestIDKey "request_id" event in
  let event := add_ctx_field ctx TraceIDKey "trace_id" event in
  let event := add_ctx_field ctx SpanIDKey "span_id" event in
  let event := add_ctx_field ctx UserIDKey "user_id" event in
  event.

(** [fields] is a Go map: [range] visits each entry once, in an order the
    runtime picks; [map_to_list] stands for that order. *)
Definition WithFields (l : Logger) (ctx : Context) (fields : gmap string Any)
  : zerolog_Logger :=
  fold_left (fun event kv => zerolog_Interface event (fst kv) (snd kv))
            (map_to_list fields) (WithContext l ctx).

Definition ExtractTraceContext (ctx : Context) (requestID traceID : string)
  : M Context :=
  requestID <- (if is_empty requestID
                then u <- uuid_New;; ret (uuid_String u)
                else ret requestID);;
  traceID <- (if is_empty traceID
              then u <- uuid_New;; ret (String.substring 0 16 (uuid_String u))
              else ret traceID);;
  u <- uuid_New;;
  let spanID := String.substring 0 8 (uuid_String u) in
  let ctx := context_WithValue ctx RequestIDKey (AStr requestID) in
  let ctx := context_WithValue ctx TraceIDKey (AStr traceID) in
  let ctx := context_WithValue ctx SpanIDKey (AStr spanID) in
  ret ctx.

Definition NewTraceContext (ctx : Context) : M Context :=
  u1 <- uuid_New;;
  u2 <- uuid_New;;
  u3 <- uuid_New;;
  let requestID := uuid_String u1 in
  let traceID := String.substring 0 16 (uuid_String u2) in
  let spanID := String.substring 0 8 (uuid_String u3) in
  let ctx := context_WithValue ctx RequestIDKey (AStr requestID) in
  let ctx := context_WithValue ctx TraceIDKey (AStr traceID) in
  let ctx := context_WithValue ctx SpanIDKey (AStr spanID) in
  ret ctx.

(** [if id, ok := ctx.Value(key).(string); ok { return id }; return ""] *)
Definition get_string (ctx : Context) (key : string) : string :=
  match context_Value ctx key with
  | Some (AStr id) => id
  | _ => EmptyString
  end.

Definition GetRequestID (ctx : Context) : string := get_string ctx RequestIDKey.
Definition GetTraceID (ctx : Context) : string := get_string ctx TraceIDKey.
Definition GetSpanID (ctx : Context) : string := get_string ctx SpanIDKey.

Definition WithSpanID (ctx : Context) (spanID : string) : Context :=
  context_WithValue ctx SpanIDKey (AStr spanID).

Definition WithTraceID (ctx : Context) (traceID : string) : Context :=
  context_WithValue ctx TraceIDKey (AStr traceID).




(** [caller] is what [runtime.Caller(1)] reports for the call: file and line. *)
Definition Error (l : Logger) (ctx : Context) (err : option string) (msg : string)
    (caller : string * Z) : M unit :=
  let '(file, line) := caller in
  let logger := WithContext l ctx in
  zerolog_Msg
    (zerolog_Str (zerolog_Err logger err)
       "error_location" (file +:+ ":" +:+ Sprintf_d line))
    ErrorLevel msg.

Definition ErrorWithStack (l : Logger) (ctx : Context) (err : option string)
    (msg : string) : M unit :=
  stackTrace <- runtime_Stack;;
  let logger := WithContext l ctx in
  zerolog_Msg (zerolog_Str (zerolog_Err logger err) "stacktrace" stackTrace)
              ErrorLevel msg.

(** [recovered] is a value that [recover] returned. *)
Definition Panic (l : Logger) (ctx : Context) (recovered : Any) (msg : string) : M unit :=
  stackTrace <- runtime_Stack;;
  let logger := WithContext l ctx in
  zerolog_Msg (zerolog_Str (zerolog_Interface logger "panic" recovered)
                 "stacktrace" stackTrace)
              ErrorLevel msg.

End logger.

(** ** pkg/tracing *)

Module tracing.

Definition GetTraceID (ctx : Context) : string :=
  let span := ctx_span ctx in
  if HasTraceID span then TraceID_String span else EmptyString.

Definition GetSpanID (ctx : Context) : string :=
  let span := ctx_span ctx in
  if HasSpanID span then SpanID_String span else EmptyString.

End tracing.

(** ** pkg/middleware *)

Module middleware.

(** A [*Metrics]: nil, or the struct whose four fields are the collectors
    of the state. *)
Inductive MetricsPtr := nilMetrics | ptrMetrics.

(** Reading a field through the pointer. *)
Definition deref (m : MetricsPtr) : M unit :=
  match m with
  | nilMetrics =>
      panic (AErr "runtime error: invalid memory address or nil pointer dereference")
  | ptrMetrics => ret tt
  end.

(** [&responseWriter{ResponseWriter: w, statusCode: code}]: the embedded
    writer and the address of the [statusCode] field. *)
Record responseWriter := {
  rw_ResponseWriter : ResponseWriter;
  rw_addr : nat
}.

Definition new_responseWriter (w : ResponseWriter) (code : Z) : M responseWriter :=
  fun s =>
    (Ret {| rw_ResponseWriter := w; rw_addr := length (st_heap s) |},
     upd_heap (fun h => h ++ [code]) s).

Definition statusCode (rw : responseWriter) : M Z :=
  get (fun s => default 0%Z (st_heap s !! rw_addr rw)).

Definition responseWriter_WriteHeader (rw : responseWriter) (code : Z) : M unit :=
  modify (upd_heap (fun h => <[rw_addr rw := code]> h));;
  WriteHeader (rw_ResponseWriter rw) code.

(** [rw] as an [http.ResponseWriter]: [Header] and [Write] are promoted from
    the embedded writer. *)
Definition as_writer (rw : responseWriter) : ResponseWriter :=
  {| Header_Set_on := Header_Set_on (rw_ResponseWriter rw);
     WriteHeader := responseWriter_WriteHeader rw;
     Write := Write (rw_ResponseWriter rw) |}.

(** What [Logging] does before it calls [next]. *)
Definition Logging_resolve (w : ResponseWriter) (r : Request) : M Context :=
  let requestID := Header_Get (Header r) "X-Request-ID" in
  let traceID := Header_Get (Header r) "X-Trace-ID" in
  ctx <- logger.ExtractTraceContext (req_Context r) requestID traceID;;
  Header_Set_on w "X-Request-ID" (logger.GetRequestID ctx);;
  Header_Set_on w "X-Trace-ID" (logger.GetTraceID ctx);;
  ret ctx.

Definition Logging (log : logger.Logger) : Handler -> Handler :=
  fun next w r =>
    start <- time_Now;;
    ctx <- Logging_resolve w r;;
    let r := Request_WithContext r ctx in
    rw <- new_responseWriter w 200;;
    next (as_writer rw) r;;
    duration <- time_Since start;;
    status <- statusCode rw;;
    let logCtx := logger.WithFields log ctx (list_to_map [
      ("method", AStr (Method r));
      ("path", AStr (URL_Path r));
      ("status", AInt status);
      ("duration_ms", AInt (Milliseconds duration));
      ("remote_addr", AStr (RemoteAddr r));
      ("user_agent", AStr (UserAgent r))]) in
    zerolog_Msg logCtx InfoLevel "HTTP request completed".

Definition MetricsMiddleware (m : MetricsPtr) : Handler -> Handler :=
  fun next w r =>
    start <- time_Now;;
    rw <- new_responseWriter w 200;;
    deref m;;
    Gauge_Inc;;
    defer Gauge_Dec (
      next (as_writer rw) r;;
      duration <- time_Since start;;
      status <- statusCode rw;;
      CounterVec_Inc (Method r, URL_Path r, Sprintf_d status);;
      HistogramVec_Observe (Method r, URL_Path r) duration).

Definition Recovery (log : logger.Logger) (m : MetricsPtr) : Handler -> Handler :=
  fun next w r =>
    defer_recover (fun recovered =>
      match recovered with
      | Some err =>
          stackTrace <- runtime_Stack;;
          let panicLog := logger.WithFields log (req_Context r) (list_to_map [
            ("method", AStr (Method r));
            ("path", AStr (URL_Path r));
            ("panic", err);
            ("stacktrace", AStr stackTrace)]) in
          zerolog_Msg panicLog ErrorLevel "Panic recovered";;
          match m with
          | ptrMetrics => Counter_Inc
          | nilMetrics => ret tt
          end;;
          http_Error w "Internal Server Error" 500
      | None => ret tt
      end)
      (next w r).

(** The loop of [Chain] with [n = i + 1]: it runs while [i >= 0]. *)
Fixpoint Chain_loop {H : Type} (middlewares : list (H -> H)) (n : nat) (final : H) : H :=
  match n with
  | O => final
  | S i =>
      match middlewares !! i with
      | Some mw => Chain_loop middlewares i (mw final)
      | None => final  (* index out of range: not reached from [Chain] *)
      end
  end.

Definition Chain {H : Type} (middlewares : list (H -> H)) : H -> H :=
  fun final => Chain_loop middlewares (length middlewares) final.

(** What [TracedLogging] does before it calls [next]: the request with the
    resolved context, and the ids taken from the tracer or the header. *)
Definition TracedLogging_resolve (w : ResponseWriter) (r : Request)
  : M (Context * string * string) :=
  let otelTraceID := tracing.GetTraceID (req_Context r) in
  let otelSpanID := tracing.GetSpanID (req_Context r) in
  let otelTraceID :=
    if is_empty otelTraceID then Header_Get (Header r) "X-Trace-ID" else otelTraceID in
  let requestID := Header_Get (Header r) "X-Request-ID" in
  ctx <- logger.ExtractTraceContext (req_Context r) requestID otelTraceID;;
  let ctx := if is_empty otelSpanID then ctx else logger.WithSpanID ctx otelSpanID in
  Header_Set_on w "X-Request-ID" (logger.GetRequestID ctx);;
  Header_Set_on w "X-Trace-ID" otelTraceID;;
  (if is_empty otelSpanID then ret tt else Header_Set_on w "X-Span-ID" otelSpanID);;
  ret (ctx, otelTraceID, otelSpanID).

Definition TracedLogging (log : logger.Logger) : Handler -> Handler :=
  fun next w r =>
    start <- time_Now;;
    ids <- TracedLogging_resolve w r;;
    let '(ctx, otelTraceID, otelSpanID) := ids in
    let r := Request_WithContext r ctx in
    rw <- new_responseWriter w 200;;
    next (as_writer rw) r;;
    duration <- time_Since start;;
    status <- statusCode rw;;
    span_SetAttributes [
      ("http.status_code", AInt status);
      ("http.duration_ms", AInt (Milliseconds duration))];;
    let tracedLog := logger.WithFields log ctx (list_to_map [
      ("method", AStr (Method r));
      ("path", AStr (URL_Path r));
      ("status", AInt status);
      ("duration_ms", AInt (Milliseconds duration));
      ("remote_addr", AStr (RemoteAddr r));
      ("user_agent", AStr (UserAgent r));
      ("trace_id", AStr otelTraceID);
      ("span_id", AStr otelSpanID)]) in
    zerolog_Msg tracedLog InfoLevel "HTTP request completed".

End middleware.

(** ** main *)

Module main.
Import middleware.

(** [os.Getenv]: the value of the variable, empty when it is not set. *)
Definition Getenv (env : gmap string string) (key : string) : string :=
  default EmptyString (env !! key).

Definition getEnvOrDefault (env : gmap string string) (key defaultValue : string)
  : string :=
  let value := Getenv env key in
  if is_empty value then defaultValue else value.

(** [strconv.Atoi]: an optional sign, then one or more decimal digits and
    nothing else; the value has to fit the 64-bit [int]. *)
Definition strconv_Atoi (s : string) : option Z :=
  let '(negative, digits) :=
    match s with
    | String "+"%char rest => (false, rest)
    | String "-"%char rest => (true, rest)
    | _ => (false, s)
    end in
  match NilZero.uint_of_string digits with
  | Some d =>
      let n := if negative then (- Z.of_uint d)%Z else Z.of_uint d in
      if ((- 2 ^ 63 <=? n) && (n <? 2 ^ 63))%Z then Some n else None
  | None => None
  end.

Definition getEnvAsInt (env : gmap string string) (key : string) (defaultValue : Z)
  : Z :=
  let value := Getenv env key in
  if is_empty value then defaultValue
  else match strconv_Atoi value with
       | Some i => i
       | None => defaultValue
       end.

(** The middleware stack of the [/api] routes.  [api.Use] wraps the route's
    handler in the order of the calls, the first call outermost, which is the
    nesting that [Chain] builds.  The otelmux middleware that [main] puts in
    front is the one that stores the span a request carries in its context. *)
Definition api (appLogger : logger.Logger) (metrics : MetricsPtr) : Handler -> Handler :=
  Chain [Recovery appLogger metrics; TracedLogging appLogger; MetricsMiddleware metrics].

End main.

(** ** Concrete requests, handlers and states used in the examples below *)

Module fixtures.
Import middleware.

Definition resp0 : Response := {| resp_header := ∅; resp_calls := [] |}.

Definition collectors0 : Collectors :=
  {| RequestsTotal := ∅; RequestDuration := ∅;
     RequestsInFlight := 0; PanicRecoveries := 0 |}.

Definition state0 : State :=
  {| st_resp := resp0; st_heap := []; st_logs := []; st_metrics := collectors0;
     st_attrs := []; st_now := 0;
     st_entropy := fun n => (N.of_nat (n + 1) * 1234567890123456789012345678901)%N;
     st_draws := 0; st_stack := "goroutine 7 [running]:" |}.

Definition background : Context := {| ctx_values := []; ctx_span := noSpan |}.

Definition log0 : logger.Logger := {| logger.zlog := {| zl_context := [] |} |}.

Definition request (headers : gmap string (list string)) (ctx : Context) : Request :=
  {| Method := "GET"; URL_Path := "/api/hello"; Header := headers;
     RemoteAddr := "10.0.0.1:5000"; req_Context := ctx |}.

(** GET /api/hello with [X-Request-ID: req-42], no [X-Trace-ID], no span *)
Definition req42 : Request := request {[ "X-Request-ID" := ["req-42"] ]} background.

(** no correlation header and no span at all *)
Definition bare : Request := request ∅ background.

(** [X-Trace-ID: abc] while the tracer has started a span with trace id 1 *)
Definition traced : Request :=
  request {[ "X-Trace-ID" := ["abc"] ]}
          {| ctx_values := []; ctx_span := {| sc_TraceID := 1; sc_SpanID := 2 |} |}.

(** the next hop as a caller simulates it: it sends back the headers it got *)
Definition downstream (resp : Response) : Request := request (resp_header resp) background.

Definition hello : Handler := fun w r => Write w "hello".

Definition respond (code : Z) : Handler :=
  fun w r => (WriteHeader w code;; Write w "body")%go.

Definition boom : Handler := fun w r => panic (AStr "boom").

Definition partial_boom : Handler :=
  fun w r => (WriteHeader w 200;; Write w "partial";; panic (AStr "boom"))%go.

End fixtures.

(** ** Vocabulary of the statements *)

Definition apply_to {H : Type} (mw : H -> H) (h : H) : H := mw h.

(** The body that [http.Error] writes for [Recovery]. *)
Definition error_line : string := "Internal Server Error" +:+ String "010"%char EmptyString.

(** The text of the [k]-th UUID that [uuid.New] hands out from state [s] on. *)
Definition fresh (s : State) (k : nat) : string :=
  uuid_String (uuid_of_random (st_entropy s (k + st_draws s))).

(** The entries of a record that carry the given key, in the order they were
    written. *)
Definition fields_named (key : string) (fields : list (string * Any))
  : list (string * Any) :=
  List.filter (fun kv => String.eqb (fst kv) key) fields.

(** What a reader that keeps the last of several equal keys finds under
    [key], as decoders of JSON objects into maps do. *)
Fixpoint record_value (fields : list (string * Any)) (key : string) : option Any :=
  match fields with
  | [] => None
  | (k, x) :: rest =>
      match record_value rest key with
      | Some y => Some y
      | None => if String.eqb k key then Some x else None
      end
  end.

(** The request id and trace id of the context a resolver returned. *)
Definition resolved_ids {A : Type} (ctx_of : A -> Context) (res : Result A)
  : option (string * string) :=
  match res with
  | Ret a => Some (logger.GetRequestID (ctx_of a), logger.GetTraceID (ctx_of a))
  | Panic _ => None
  end.

(** * Properties *)

Import middleware.

(** Unfolds the monad and the primitive effects, then the record
    projections that meet a constructor; nothing of the maps. *)
Ltac run :=
  cbv beta iota zeta delta
    [bind ret panic get modify defer defer_recover
     time_Now time_Since runtime_Stack zerolog_Msg span_SetAttributes uuid_New
     http_Error transport Header_Set_on WriteHeader Write
     transport_Header_Set transport_WriteHeader transport_Write
     CounterVec_Inc HistogramVec_Observe Gauge_Inc Gauge_Dec Gauge_Add Counter_Inc
     deref new_responseWriter statusCode responseWriter_WriteHeader as_writer];
  cbn beta iota zeta delta
    [rw_ResponseWriter rw_addr
     upd_resp upd_heap upd_logs upd_metrics upd_attrs upd_draws
     st_resp st_heap st_logs st_metrics st_attrs st_now st_entropy st_draws st_stack
     resp_header resp_calls
     RequestsTotal RequestDuration RequestsInFlight PanicRecoveries
     fst snd].

(** The record projections that meet a constructor. *)
Ltac project :=
  cbn beta iota zeta delta
    [rw_ResponseWriter rw_addr
     upd_resp upd_heap upd_logs upd_metrics upd_attrs upd_draws
     st_resp st_heap st_logs st_metrics st_attrs st_now st_entropy st_draws st_stack
     resp_header resp_calls
     RequestsTotal RequestDuration RequestsInFlight PanicRecoveries
     fst snd].

(** Brings the call of the handler in the goal into the form it has in [H]. *)
Ltac fold_call H :=
  match type of H with
  | ?inner = _ =>
      match inner with
      | ?h _ _ _ =>
          match goal with
          | |- context [h ?a ?b ?c] => change (h a b c) with inner
          end
      end
  end.

(** ** Chain *)

Lemma Chain_loop_take {H : Type} (middlewares : list (H -> H)) (n : nat) (final : H) :
  n <= length middlewares ->
  Chain_loop middlewares n final = fold_right apply_to final (take n middlewares).
Proof.
  revert final. induction n as [|i IH]; intros final Hn; [reflexivity|].
  destruct (lookup_lt_is_Some_2 middlewares i) as [mw Hmw]; [lia|].
  cbn [Chain_loop]. rewrite Hmw, IH by lia.
  rewrite (take_S_r _ _ _ Hmw), fold_right_app. reflexivity.
Qed.

(** C7: [Chain(m1, ..., mn)(t)] is the nested application
    [m1(m2(...(mn(t))))], and [Chain()] of no interceptor gives [t] back. *)
Theorem Chain_nested (middlewares : list (Handler -> Handler)) (t : Handler) :
  Chain middlewares t = fold_right (fun mw h => mw h) t middlewares
  /\ Chain [] t = t.
Proof.
  split; [|reflexivity].
  unfold Chain. rewrite Chain_loop_take by lia.
  rewrite firstn_all. reflexivity.
Qed.

(** ** The logger *)

Lemma fold_Interface (kvs : list (string * Any)) (l : zerolog_Logger) :
  zl_context (fold_left (fun event kv => zerolog_Interface event (fst kv) (snd kv)) kvs l)
  = zl_context l ++ kvs.
Proof.
  revert l. induction kvs as [|[k x] kvs IH]; intros l; cbn [fold_left].
  - symmetry. apply app_nil_r.
  - rewrite IH. cbn [zerolog_Interface zl_context fst snd].
    rewrite <- app_assoc. reflexivity.
Qed.

(** The record built by [WithFields]: the logger's own fields, the context's,
    then every entry of the caller's map. *)
Lemma WithFields_context (l : logger.Logger) (ctx : Context) (fields : gmap string Any) :
  zl_context (logger.WithFields l ctx fields)
  = zl_context (logger.WithContext l ctx) ++ map_to_list fields.
Proof. unfold logger.WithFields. apply fold_Interface. Qed.

Lemma WithFields_field (l : logger.Logger) (ctx : Context) (fields : gmap string Any)
    (k : string) (x : Any) :
  fields !! k = Some x -> (k, x) ∈ zl_context (logger.WithFields l ctx fields).
Proof.
  intros Hk. rewrite WithFields_context. apply elem_of_app. right.
  apply elem_of_map_to_list. exact Hk.
Qed.

(** ** Recovery *)

Section Recovery_after_panic.
Variables (log : logger.Logger) (m : MetricsPtr) (next : Handler) (r : Request).
Variables (s s1 : State) (v : Any).
Hypothesis Hpanic : next transport r s = (Panic v, s1).

Let out := Recovery log m next transport r s.

Lemma Recovery_returns : fst out = Ret tt.
Proof.
  subst out. unfold Recovery, defer_recover. rewrite Hpanic.
  run. destruct m, (wroteHeader _); reflexivity.
Qed.

Lemma Recovery_logs :
  exists ev, st_logs (snd out) = st_logs s1 ++ [ev]
             /\ ev_level ev = ErrorLevel /\ ev_msg ev = "Panic recovered"
             /\ (("panic", v) : string * Any) ∈ ev_fields ev.
Proof.
  subst out. unfold Recovery, defer_recover. rewrite Hpanic.
  eexists. split; [run; destruct m, (wroteHeader _); reflexivity|].
  split; [reflexivity|]. split; [reflexivity|].
  cbn [ev_fields]. apply WithFields_field.
  vm_compute. reflexivity.
Qed.

Lemma Recovery_calls :
  resp_calls (st_resp (snd out))
  = resp_calls (st_resp s1) ++ [CallWriteHeader 500; CallWrite error_line].
Proof.
  subst out. unfold Recovery, defer_recover. rewrite Hpanic.
  run. destruct m, (wroteHeader _); cbn; rewrite <- app_assoc; reflexivity.
Qed.

Lemma Recovery_metrics :
  st_metrics (snd out)
  = match m with
    | ptrMetrics =>
        {| RequestsTotal := RequestsTotal (st_metrics s1);
           RequestDuration := RequestDuration (st_metrics s1);
           RequestsInFlight := RequestsInFlight (st_metrics s1);
           PanicRecoveries := S (PanicRecoveries (st_metrics s1)) |}
    | nilMetrics => st_metrics s1
    end.
Proof.
  subst out. unfold Recovery, defer_recover. rewrite Hpanic.
  run. destruct m, (wroteHeader _); reflexivity.
Qed.

End Recovery_after_panic.

Lemma Recovery_status_fresh (log : logger.Logger) (m : MetricsPtr) (next : Handler)
    (r : Request) (s s1 : State) (v : Any) :
  next transport r s = (Panic v, s1) ->
  wroteHeader (st_resp s1) = false ->
  sent_status (st_resp (snd (Recovery log m next transport r s))) = Some 500%Z.
Proof.
  intros Hpanic Hfresh.
  pose proof (Recovery_calls log m next r s s1 v Hpanic) as Hcalls.
  unfold sent_status. rewrite Hcalls.
  unfold wroteHeader in Hfresh. destruct (resp_calls (st_resp s1)); [reflexivity|discriminate].
Qed.

Lemma Recovery_status_kept (log : logger.Logger) (m : MetricsPtr) (next : Handler)
    (r : Request) (s s1 : State) (v : Any) :
  next transport r s = (Panic v, s1) ->
  wroteHeader (st_resp s1) = true ->
  sent_status (st_resp (snd (Recovery log m next transport r s)))
  = sent_status (st_resp s1).
Proof.
  intros Hpanic Hsent.
  pose proof (Recovery_calls log m next r s s1 v Hpanic) as Hcalls.
  unfold sent_status. rewrite Hcalls.
  unfold wroteHeader in Hsent.
  destruct (resp_calls (st_resp s1)) as [|[] ?]; [discriminate|reflexivity..].
Qed.

(** C1, as the code has it: when the wrapped handler panics, [Recovery] (built
    with a non-nil [*Metrics], on the server's writer) returns normally, hands
    exactly one error-level event to the logger and adds exactly one to the
    panic counter; the response status is 500 whenever the handler had not yet
    written anything to the response. *)
Theorem Recovery_absorbs_panic (log : logger.Logger) (next : Handler) (r : Request)
    (s s1 : State) (v : Any) :
  next transport r s = (Panic v, s1) ->
  let out := Recovery log ptrMetrics next transport r s in
  fst out = Ret tt
  /\ (exists ev, st_logs (snd out) = st_logs s1 ++ [ev] /\ ev_level ev = ErrorLevel)
  /\ PanicRecoveries (st_metrics (snd out)) = S (PanicRecoveries (st_metrics s1))
  /\ (wroteHeader (st_resp s1) = false ->
      sent_status (st_resp (snd out)) = Some 500%Z).
Proof.
  intros Hpanic out. subst out. repeat split.
  - eapply Recovery_returns; eassumption.
  - destruct (Recovery_logs log ptrMetrics next r s s1 v Hpanic) as (ev & Hev & Hlvl & _).
    exists ev. split; assumption.
  - rewrite (Recovery_metrics log ptrMetrics next r s s1 v Hpanic). reflexivity.
  - intros Hfresh. eapply Recovery_status_fresh; eassumption.
Qed.

Lemma Recovery_absorbs_panic_witness :
  fixtures.boom transport fixtures.req42 fixtures.state0
  = (Panic (AStr "boom"), fixtures.state0)
  /\ let out := Recovery fixtures.log0 ptrMetrics fixtures.boom transport
                  fixtures.req42 fixtures.state0 in
     fst out = Ret tt
     /\ (exists ev, st_logs (snd out) = [] ++ [ev] /\ ev_level ev = ErrorLevel)
     /\ PanicRecoveries (st_metrics (snd out)) = 1%nat
     /\ sent_status (st_resp (snd out)) = Some 500%Z.
Proof.
  split; [reflexivity|].
  destruct (Recovery_absorbs_panic fixtures.log0 fixtures.boom fixtures.req42
              fixtures.state0 fixtures.state0 (AStr "boom") eq_refl)
    as (Hret & Hlog & Hcount & Hstatus).
  exact (conj Hret (conj Hlog (conj Hcount (Hstatus eq_refl)))).
Defined.

(** C1 as stated fails: a handler that has sent its header and part of the
    body before it panics leaves the client with status 200, not 500. *)
Lemma Recovery_status_after_partial_write :
  fst (fixtures.partial_boom transport fixtures.req42 fixtures.state0)
  = Panic (AStr "boom")
  /\ sent_status (st_resp (snd (Recovery fixtures.log0 ptrMetrics fixtures.partial_boom
                                  transport fixtures.req42 fixtures.state0)))
     = Some 200%Z
  /\ Some 200%Z <> Some 500%Z.
Proof. split; [reflexivity|]. split; [vm_compute; reflexivity|discriminate]. Qed.

(** C4, as the code has it: when the handler panics after the header was
    written, [Recovery] makes the same fallback call to [http.Error] as in
    any other case: a second [WriteHeader(500)], which leaves the status the
    client already got, and a write of the error line; the one event it logs
    is the error-level "Panic recovered". *)
Theorem Recovery_fallback_after_headers_sent (log : logger.Logger) (m : MetricsPtr)
    (next : Handler) (r : Request) (s s1 : State) (v : Any) :
  next transport r s = (Panic v, s1) ->
  wroteHeader (st_resp s1) = true ->
  let out := Recovery log m next transport r s in
  resp_calls (st_resp (snd out))
  = resp_calls (st_resp s1) ++ [CallWriteHeader 500; CallWrite error_line]
  /\ sent_status (st_resp (snd out)) = sent_status (st_resp s1)
  /\ exists ev, st_logs (snd out) = st_logs s1 ++ [ev]
                /\ ev_level ev = ErrorLevel /\ ev_msg ev = "Panic recovered".
Proof.
  intros Hpanic Hsent out. subst out. split; [|split].
  - eapply Recovery_calls; eassumption.
  - eapply Recovery_status_kept; eassumption.
  - destruct (Recovery_logs log m next r s s1 v Hpanic) as (ev & Hev & Hlvl & Hmsg & _).
    exists ev. repeat split; assumption.
Qed.

Lemma Recovery_fallback_after_headers_sent_witness :
  let inner := fixtures.partial_boom transport fixtures.req42 fixtures.state0 in
  let out := Recovery fixtures.log0 ptrMetrics fixtures.partial_boom transport
               fixtures.req42 fixtures.state0 in
  inner = (Panic (AStr "boom"), snd inner)
  /\ wroteHeader (st_resp (snd inner)) = true
  /\ resp_calls (st_resp (snd out))
     = resp_calls (st_resp (snd inner)) ++ [CallWriteHeader 500; CallWrite error_line]
  /\ sent_status (st_resp (snd out)) = sent_status (st_resp (snd inner)).
Proof.
  intros inner out.
  assert (Hinner : inner = (Panic (AStr "boom"), snd inner)) by reflexivity.
  assert (Hsent : wroteHeader (st_resp (snd inner)) = true) by reflexivity.
  destruct (Recovery_fallback_after_headers_sent fixtures.log0 ptrMetrics
              fixtures.partial_boom fixtures.req42 fixtures.state0 (snd inner)
              (AStr "boom") Hinner Hsent) as (Hcalls & Hstatus & _).
  exact (conj Hinner (conj Hsent (conj Hcalls Hstatus))).
Defined.

(** C4 as stated fails: after a handler wrote header and body and then
    panicked, the fallback write is not suppressed (the transport gets a
    second [WriteHeader] and the error line after the handler's own output),
    and the only event logged is the error-level "Panic recovered": nothing
    reports the conflict. *)
Lemma Recovery_second_write_not_suppressed :
  let out := Recovery fixtures.log0 ptrMetrics fixtures.partial_boom transport
               fixtures.req42 fixtures.state0 in
  resp_calls (st_resp (snd out))
  = [CallWriteHeader 200; CallWrite "partial"; CallWriteHeader 500; CallWrite error_line]
  /\ map (fun ev => (ev_level ev, ev_msg ev)) (st_logs (snd out))
     = [(ErrorLevel, "Panic recovered")].
Proof. split; vm_compute; reflexivity. Qed.

(** C10: with a nil [*Metrics] a panic of the wrapped handler is still
    recovered: [Recovery] returns normally, hands the error-level event to
    the logger and makes the [http.Error] call with status 500 (which is the
    status sent when the handler had written nothing); no collector changes,
    so the panic counter is not incremented. *)
Theorem Recovery_nil_metrics (log : logger.Logger) (next : Handler) (r : Request)
    (s s1 : State) (v : Any) :
  next transport r s = (Panic v, s1) ->
  let out := Recovery log nilMetrics next transport r s in
  fst out = Ret tt
  /\ (exists ev, st_logs (snd out) = st_logs s1 ++ [ev]
                 /\ ev_level ev = ErrorLevel /\ ev_msg ev = "Panic recovered")
  /\ resp_calls (st_resp (snd out))
     = resp_calls (st_resp s1) ++ [CallWriteHeader 500; CallWrite error_line]
  /\ (wroteHeader (st_resp s1) = false -> sent_status (st_resp (snd out)) = Some 500%Z)
  /\ st_metrics (snd out) = st_metrics s1.
Proof.
  intros Hpanic out. subst out. repeat split.
  - eapply Recovery_returns; eassumption.
  - destruct (Recovery_logs log nilMetrics next r s s1 v Hpanic)
      as (ev & Hev & Hlvl & Hmsg & _).
    exists ev. repeat split; assumption.
  - eapply Recovery_calls; eassumption.
  - intros Hfresh. eapply Recovery_status_fresh; eassumption.
  - eapply (Recovery_metrics log nilMetrics); eassumption.
Qed.

Lemma Recovery_nil_metrics_witness :
  fixtures.boom transport fixtures.bare fixtures.state0
  = (Panic (AStr "boom"), fixtures.state0)
  /\ let out := Recovery fixtures.log0 nilMetrics fixtures.boom transport
                  fixtures.bare fixtures.state0 in
     fst out = Ret tt
     /\ resp_calls (st_resp (snd out)) = [] ++ [CallWriteHeader 500; CallWrite error_line]
     /\ sent_status (st_resp (snd out)) = Some 500%Z
     /\ PanicRecoveries (st_metrics (snd out)) = 0%nat.
Proof.
  split; [reflexivity|].
  destruct (Recovery_nil_metrics fixtures.log0 fixtures.boom fixtures.bare
              fixtures.state0 fixtures.state0 (AStr "boom") eq_refl)
    as (Hret & _ & Hcalls & Hstatus & Hmetrics).
  exact (conj Hret (conj Hcalls (conj (Hstatus eq_refl)
                                        (f_equal PanicRecoveries Hmetrics)))).
Defined.

(** ** MetricsMiddleware *)

(** C6: [MetricsMiddleware] runs the inner handler with the in-flight gauge
    one above its value on entry and leaves it one below the value the inner
    handler left, whether that handler returns or panics (the panic goes on to
    the caller); so when the inner handler leaves the gauge as it found it,
    the gauge is back at its value from before the request. *)
Theorem MetricsMiddleware_in_flight (next : Handler) (w : ResponseWriter) (r : Request)
    (s : State) :
  let rw := {| rw_ResponseWriter := w; rw_addr := length (st_heap s) |} in
  let s_in := snd (Gauge_Inc (snd (new_responseWriter w 200 s))) in
  let inner := next (as_writer rw) r s_in in
  let out := MetricsMiddleware ptrMetrics next w r s in
  RequestsInFlight (st_metrics s_in) = (RequestsInFlight (st_metrics s) + 1)%Z
  /\ RequestsInFlight (st_metrics (snd out))
     = (RequestsInFlight (st_metrics (snd inner)) - 1)%Z
  /\ (forall v, fst inner = Panic v -> fst out = Panic v)
  /\ (fst inner = Ret tt -> fst out = Ret tt)
  /\ (RequestsInFlight (st_metrics (snd inner)) = RequestsInFlight (st_metrics s_in) ->
      RequestsInFlight (st_metrics (snd out)) = RequestsInFlight (st_metrics s)).
Proof.
  intros rw s_in inner out.
  assert (Hin : RequestsInFlight (st_metrics s_in)
                = (RequestsInFlight (st_metrics s) + 1)%Z) by reflexivity.
  assert (Hout : RequestsInFlight (st_metrics (snd out))
                 = (RequestsInFlight (st_metrics (snd inner)) - 1)%Z
                 /\ (forall v, fst inner = Panic v -> fst out = Panic v)
                 /\ (fst inner = Ret tt -> fst out = Ret tt)).
  { subst out. unfold MetricsMiddleware. run.
    change (next _ r _) with inner.
    destruct inner as [[[]|v'] s2]; cbn [fst snd]; run.
    - split; [lia|]. split; [discriminate|reflexivity].
    - split; [lia|]. split; [intros v Hv; exact Hv|discriminate]. }
  destruct Hout as (Hdec & Hpanic & Hret).
  split; [exact Hin|]. split; [exact Hdec|]. split; [exact Hpanic|].
  split; [exact Hret|]. intros Hkept. rewrite Hdec, Hkept, Hin. lia.
Qed.

(** C8, as the code has it: when the inner handler returns normally,
    [MetricsMiddleware] returns normally, adds one to the request counter
    under the labels (method, path, status), where status is the decimal text
    of the exact code held by the response wrapper, and adds one observation,
    the elapsed time, to the duration histogram under (method, path). *)
Theorem MetricsMiddleware_records (next : Handler) (w : ResponseWriter) (r : Request)
    (s s1 : State) :
  let rw := {| rw_ResponseWriter := w; rw_addr := length (st_heap s) |} in
  let s_in := snd (Gauge_Inc (snd (new_responseWriter w 200 s))) in
  next (as_writer rw) r s_in = (Ret tt, s1) ->
  let status := default 0%Z (st_heap s1 !! length (st_heap s)) in
  let labels := (Method r, URL_Path r, Sprintf_d status) in
  let series := (Method r, URL_Path r) in
  let out := MetricsMiddleware ptrMetrics next w r s in
  fst out = Ret tt
  /\ RequestsTotal (st_metrics (snd out))
     = <[labels := S (default 0%nat (RequestsTotal (st_metrics s1) !! labels))]>
         (RequestsTotal (st_metrics s1))
  /\ RequestDuration (st_metrics (snd out))
     = <[series := default [] (RequestDuration (st_metrics s1) !! series)
                   ++ [(st_now s1 - st_now s)%Z]]>
         (RequestDuration (st_metrics s1)).
Proof.
  intros rw s_in Hnext status labels series out.
  subst out. unfold MetricsMiddleware. run.
  change (next _ r _) with (next (as_writer rw) r s_in). rewrite Hnext.
  run. split; [reflexivity|]. split; reflexivity.
Qed.

Lemma MetricsMiddleware_records_witness :
  let out := MetricsMiddleware ptrMetrics (fixtures.respond 404) transport
               fixtures.req42 fixtures.state0 in
  fst out = Ret tt
  /\ RequestsTotal (st_metrics (snd out)) !! ("GET", "/api/hello", "404") = Some 1%nat
  /\ RequestDuration (st_metrics (snd out)) !! ("GET", "/api/hello") = Some [0%Z].
Proof.
  intros out.
  pose (rw := {| rw_ResponseWriter := transport;
                 rw_addr := length (st_heap fixtures.state0) |}).
  pose (s_in := snd (Gauge_Inc (snd (new_responseWriter transport 200 fixtures.state0)))).
  pose (inner := fixtures.respond 404 (as_writer rw) fixtures.req42 s_in).
  assert (Hinner : inner = (Ret tt, snd inner)) by reflexivity.
  destruct (MetricsMiddleware_records (fixtures.respond 404) transport fixtures.req42
              fixtures.state0 (snd inner) Hinner) as (Hret & Htotal & Hduration).
  split; [exact Hret|]. split.
  - change (RequestsTotal (st_metrics (snd out))) with
      (RequestsTotal (st_metrics (snd (MetricsMiddleware ptrMetrics (fixtures.respond 404)
         transport fixtures.req42 fixtures.state0)))).
    rewrite Htotal. vm_compute. reflexivity.
  - change (RequestDuration (st_metrics (snd out))) with
      (RequestDuration (st_metrics (snd (MetricsMiddleware ptrMetrics (fixtures.respond 404)
         transport fixtures.req42 fixtures.state0)))).
    rewrite Hduration. vm_compute. reflexivity.
Defined.

(** C8 as stated fails: the status label is the code itself, not its class.
    Two responses of class 4xx, 403 and 404, are counted in two different
    series, and no series is labelled "4xx". *)
Lemma MetricsMiddleware_status_label_is_the_code :
  let total code :=
    RequestsTotal (st_metrics (snd (MetricsMiddleware ptrMetrics (fixtures.respond code)
                                      transport fixtures.req42 fixtures.state0))) in
  total 403%Z !! ("GET", "/api/hello", "403") = Some 1%nat
  /\ total 404%Z !! ("GET", "/api/hello", "404") = Some 1%nat
  /\ total 404%Z !! ("GET", "/api/hello", "403") = None
  /\ total 404%Z !! ("GET", "/api/hello", "4xx") = None.
Proof. repeat split; vm_compute; reflexivity. Qed.

(** ** The logger's record *)

Lemma add_ctx_field_keeps (ctx : Context) (key name : string) (event : zerolog_Logger)
    (kv : string * Any) :
  kv ∈ zl_context event -> kv ∈ zl_context (logger.add_ctx_field ctx key name event).
Proof.
  intros Hin. unfold logger.add_ctx_field.
  destruct (context_Value ctx key) as [[v| |]|]; try exact Hin.
  destruct (is_empty v); [exact Hin|].
  cbn [zerolog_Str zl_context]. apply elem_of_app. left. exact Hin.
Qed.

Lemma add_ctx_field_adds (ctx : Context) (key name v : string) (event : zerolog_Logger) :
  context_Value ctx key = Some (AStr v) -> is_empty v = false ->
  (name, AStr v) ∈ zl_context (logger.add_ctx_field ctx key name event).
Proof.
  intros Hv Hne. unfold logger.add_ctx_field. rewrite Hv, Hne.
  cbn [zerolog_Str zl_context]. apply elem_of_app. right. apply list_elem_of_singleton.
  reflexivity.
Qed.

Lemma WithContext_field (l : logger.Logger) (ctx : Context) (key v : string) :
  key ∈ [logger.RequestIDKey; logger.TraceIDKey; logger.SpanIDKey; logger.UserIDKey] ->
  context_Value ctx key = Some (AStr v) -> is_empty v = false ->
  (key, AStr v) ∈ zl_context (logger.WithContext l ctx).
Proof.
  intros Hkey Hv Hne. unfold logger.WithContext.
  repeat (apply elem_of_cons in Hkey as [-> | Hkey]).
  - do 3 apply add_ctx_field_keeps. apply add_ctx_field_adds; assumption.
  - do 2 apply add_ctx_field_keeps. apply add_ctx_field_adds; assumption.
  - apply add_ctx_field_keeps. apply add_ctx_field_adds; assumption.
  - apply add_ctx_field_adds; assumption.
  - apply elem_of_nil in Hkey. contradiction.
Qed.

(** C9, as the code has it: a correlation field that the active context holds
    as a non-empty string is in the emitted record with the context's value,
    ahead of all the caller's fields; every caller-supplied field follows,
    one with the same key included: it is written as a further entry under
    that key, neither dropped nor replaced. *)
Theorem WithFields_record (l : logger.Logger) (ctx : Context) (fields : gmap string Any)
    (lvl : Level) (msg : string) (s : State) (key v : string) :
  key ∈ [logger.RequestIDKey; logger.TraceIDKey; logger.SpanIDKey; logger.UserIDKey] ->
  context_Value ctx key = Some (AStr v) ->
  is_empty v = false ->
  exists pre post,
    st_logs (snd (zerolog_Msg (logger.WithFields l ctx fields) lvl msg s))
    = st_logs s ++ [{| ev_level := lvl; ev_msg := msg;
                       ev_fields := pre ++ (key, AStr v) :: post ++ map_to_list fields |}]
    /\ forall x, fields !! key = Some x -> (key, x) ∈ map_to_list fields.
Proof.
  intros Hkey Hv Hne.
  destruct (list_elem_of_split _ _ (WithContext_field l ctx key v Hkey Hv Hne))
    as (pre & post & Hsplit).
  exists pre, post. split.
  - run. rewrite WithFields_context, Hsplit, <- app_assoc. reflexivity.
  - intros x Hx. apply elem_of_map_to_list. exact Hx.
Qed.

Lemma WithFields_record_witness :
  let ctx := context_WithValue fixtures.background logger.RequestIDKey (AStr "ctx-id") in
  exists pre post,
    st_logs (snd (zerolog_Msg
                    (logger.WithFields fixtures.log0 ctx {[ "status" := AInt 200 ]})
                    InfoLevel "done" fixtures.state0))
    = [] ++ [{| ev_level := InfoLevel; ev_msg := "done";
                ev_fields := pre ++ ("request_id", AStr "ctx-id")
                             :: post ++ map_to_list {[ "status" := AInt 200 ]} |}].
Proof.
  intros ctx.
  assert (Hkey : logger.RequestIDKey
                 ∈ [logger.RequestIDKey; logger.TraceIDKey; logger.SpanIDKey;
                    logger.UserIDKey]) by (apply elem_of_cons; left; reflexivity).
  destruct (WithFields_record fixtures.log0 ctx {[ "status" := AInt 200 ]} InfoLevel "done"
              fixtures.state0 logger.RequestIDKey "ctx-id" Hkey eq_refl eq_refl)
    as (pre & post & Hlogs & _).
  exists pre, post. exact Hlogs.
Defined.

(** C9 as stated fails: a caller's field with the key of a context field is
    written into the record after the context's entry, so the record holds
    the caller's value under that key as well, and a reader that keeps the
    last of two equal keys reads the caller's value. *)
Lemma WithFields_caller_field_follows_context :
  let ctx := context_WithValue fixtures.background logger.RequestIDKey (AStr "ctx-id") in
  let out := zerolog_Msg
               (logger.WithFields fixtures.log0 ctx {[ "request_id" := AStr "caller-id" ]})
               InfoLevel "done" fixtures.state0 in
  map ev_fields (st_logs (snd out))
  = [[("request_id", AStr "ctx-id"); ("request_id", AStr "caller-id")]]
  /\ map (fun ev => record_value (ev_fields ev) "request_id") (st_logs (snd out))
     = [Some (AStr "caller-id")].
Proof. split; vm_compute; reflexivity. Qed.

(** ** The identifier resolver *)

Lemma uuid_String_nonempty (u : N) : is_empty (uuid_String u) = false.
Proof. reflexivity. Qed.

Lemma uuid_prefix_nonempty (u : N) :
  is_empty (String.substring 0 16 (uuid_String u)) = false.
Proof. reflexivity. Qed.

Lemma TraceID_String_nonempty (sc : SpanContext) : is_empty (TraceID_String sc) = false.
Proof. reflexivity. Qed.

Lemma SpanID_String_nonempty (sc : SpanContext) : is_empty (SpanID_String sc) = false.
Proof. reflexivity. Qed.

(** A version 4 UUID prints as 36 characters, so the slices [[:16]] and
    [[:8]] of the source are in range. *)
Lemma uuid_String_length (u : N) : String.length (uuid_String u) = 36%nat.
Proof. reflexivity. Qed.

Lemma Header_Get_Set (h : gmap string (list string)) (key value : string) :
  Header_Get (Header_Set h key value) key = value.
Proof. unfold Header_Get, Header_Set. rewrite lookup_insert_eq. reflexivity. Qed.

Lemma Header_Get_Set_other (h : gmap string (list string)) (key key' value : string) :
  key <> key' -> Header_Get (Header_Set h key value) key' = Header_Get h key'.
Proof.
  intros Hne. unfold Header_Get, Header_Set. rewrite lookup_insert_ne by exact Hne.
  reflexivity.
Qed.

Lemma ExtractTraceContext_run (ctx : Context) (requestID traceID : string) (s : State) :
  let k1 := if is_empty requestID then 1%nat else 0%nat in
  let k2 := if is_empty traceID then 1%nat else 0%nat in
  let rid := if is_empty requestID then fresh s 0 else requestID in
  let tid := if is_empty traceID then String.substring 0 16 (fresh s k1) else traceID in
  let sid := String.substring 0 8 (fresh s (k2 + k1)) in
  logger.ExtractTraceContext ctx requestID traceID s
  = (Ret (context_WithValue
            (context_WithValue
               (context_WithValue ctx logger.RequestIDKey (AStr rid))
               logger.TraceIDKey (AStr tid))
            logger.SpanIDKey (AStr sid)),
     upd_draws (fun n => S (k2 + (k1 + n))) s).
Proof.
  unfold logger.ExtractTraceContext.
  destruct (is_empty requestID), (is_empty traceID); reflexivity.
Qed.

(** What [TracedLogging] resolves on the transport's writer: the trace id it
    stamps and logs is the tracer's, else the inbound header's, and stays
    empty when there is neither; the context gets a fresh one in that case. *)
Lemma TracedLogging_resolve_run (r : Request) (s : State) :
  let span := ctx_span (req_Context r) in
  let inboundRequestID := Header_Get (Header r) "X-Request-ID" in
  let otelTraceID :=
    if HasTraceID span then TraceID_String span else Header_Get (Header r) "X-Trace-ID" in
  let otelSpanID := if HasSpanID span then SpanID_String span else EmptyString in
  let k1 := if is_empty inboundRequestID then 1%nat else 0%nat in
  exists ctx s',
    TracedLogging_resolve transport r s = (Ret (ctx, otelTraceID, otelSpanID), s')
    /\ logger.GetRequestID ctx
       = (if is_empty inboundRequestID then fresh s 0 else inboundRequestID)
    /\ logger.GetTraceID ctx
       = (if is_empty otelTraceID then String.substring 0 16 (fresh s k1) else otelTraceID)
    /\ Header_Get (resp_header (st_resp s')) "X-Request-ID" = logger.GetRequestID ctx
    /\ Header_Get (resp_header (st_resp s')) "X-Trace-ID" = otelTraceID.
Proof.
  intros span inboundRequestID otelTraceID otelSpanID k1.
  unfold TracedLogging_resolve, tracing.GetTraceID, tracing.GetSpanID.
  fold span. fold inboundRequestID.
  assert (Hotel : (if is_empty (if HasTraceID span then TraceID_String span else EmptyString)
                   then Header_Get (Header r) "X-Trace-ID"
                   else if HasTraceID span then TraceID_String span else EmptyString)
                  = otelTraceID).
  { subst otelTraceID. destruct (HasTraceID span); reflexivity. }
  rewrite Hotel.
  assert (Hspan : is_empty (if HasSpanID span then SpanID_String span else EmptyString)
                  = negb (HasSpanID span)).
  { destruct (HasSpanID span); reflexivity. }
  rewrite Hspan. fold otelSpanID.
  unfold bind at 1. rewrite ExtractTraceContext_run.
  destruct (HasSpanID span); cbn [negb]; run;
    (eexists; eexists; split; [reflexivity|]);
    cbn [st_resp upd_resp upd_draws resp_header];
    (split; [reflexivity|]); (split; [reflexivity|]);
    (split; [|try rewrite Header_Get_Set_other by discriminate;
               apply Header_Get_Set]).
  - rewrite !Header_Get_Set_other by discriminate. apply Header_Get_Set.
  - rewrite Header_Get_Set_other by discriminate. apply Header_Get_Set.
Qed.

(** The same for [Logging], which stamps what it has put into the context. *)
Lemma Logging_resolve_run (r : Request) (s : State) :
  let inboundRequestID := Header_Get (Header r) "X-Request-ID" in
  let inboundTraceID := Header_Get (Header r) "X-Trace-ID" in
  let k1 := if is_empty inboundRequestID then 1%nat else 0%nat in
  exists ctx s',
    Logging_resolve transport r s = (Ret ctx, s')
    /\ logger.GetRequestID ctx
       = (if is_empty inboundRequestID then fresh s 0 else inboundRequestID)
    /\ logger.GetTraceID ctx
       = (if is_empty inboundTraceID then String.substring 0 16 (fresh s k1)
          else inboundTraceID)
    /\ Header_Get (resp_header (st_resp s')) "X-Request-ID" = logger.GetRequestID ctx
    /\ Header_Get (resp_header (st_resp s')) "X-Trace-ID" = logger.GetTraceID ctx.
Proof.
  intros inboundRequestID inboundTraceID k1.
  unfold Logging_resolve. fold inboundRequestID. fold inboundTraceID.
  unfold bind at 1. rewrite ExtractTraceContext_run. run.
  eexists; eexists; split; [reflexivity|].
  cbn [st_resp upd_resp upd_draws resp_header].
  split; [reflexivity|]. split; [reflexivity|]. split.
  - rewrite Header_Get_Set_other by discriminate. apply Header_Get_Set.
  - apply Header_Get_Set.
Qed.

(** C3, as the code has it: in [TracedLogging] the trace id of the resolved
    context is the trace id of the active span whenever the span has one; the
    inbound [X-Trace-ID] value is used, unchanged, only when the span has
    none and the value is not empty; otherwise a fresh id is generated. *)
Theorem TracedLogging_trace_id_precedence (r : Request) (s : State) :
  let span := ctx_span (req_Context r) in
  let inbound := Header_Get (Header r) "X-Trace-ID" in
  let k1 := if is_empty (Header_Get (Header r) "X-Request-ID") then 1%nat else 0%nat in
  exists ctx otelTraceID otelSpanID s',
    TracedLogging_resolve transport r s = (Ret (ctx, otelTraceID, otelSpanID), s')
    /\ logger.GetTraceID ctx
       = if HasTraceID span then TraceID_String span
         else if is_empty inbound then String.substring 0 16 (fresh s k1)
         else inbound.
Proof.
  intros span inbound k1.
  destruct (TracedLogging_resolve_run r s) as (ctx & s' & Hrun & _ & Htrace & _).
  eexists ctx, _, _, s'. split; [exact Hrun|].
  rewrite Htrace. fold span. fold inbound. fold k1.
  destruct (HasTraceID span); [|reflexivity].
  rewrite TraceID_String_nonempty. reflexivity.
Qed.

(** C3 as stated fails: with [X-Trace-ID: abc] on the request and a span of
    trace id 1 already active, the resolved trace id is the span's. *)
Lemma TracedLogging_span_overrides_header :
  Header_Get (Header fixtures.traced) "X-Trace-ID" = "abc"
  /\ resolved_ids (fun ids => fst (fst ids))
       (fst (TracedLogging_resolve transport fixtures.traced fixtures.state0))
     = Some ("0000000f-951a-4fa3-a286-c94f0e766c35", "00000000000000000000000000000001").
Proof. split; vm_compute; reflexivity. Qed.

(** C2 at the request of the scenario ([X-Request-ID: req-42], no
    [X-Trace-ID], no span): the response carries [X-Request-ID: req-42] and
    the logged record has [request_id=req-42], but [X-Trace-ID] is set to the
    empty string; the fresh trace id went into the context only, and the
    record carries it next to an empty [trace_id] from the caller's fields. *)
Theorem TracedLogging_req42_trace_header_empty :
  let out := TracedLogging fixtures.log0 fixtures.hello transport fixtures.req42
               fixtures.state0 in
  fst out = Ret tt
  /\ resp_header (st_resp (snd out)) !! "X-Request-ID" = Some ["req-42"]
  /\ resp_header (st_resp (snd out)) !! "X-Trace-ID" = Some [EmptyString]
  /\ map (fun ev => fields_named "request_id" (ev_fields ev)) (st_logs (snd out))
     = [[("request_id", AStr "req-42")]]
  /\ map (fun ev => fields_named "trace_id" (ev_fields ev)) (st_logs (snd out))
     = [[("trace_id", AStr "0000000f-951a-4f"); ("trace_id", AStr EmptyString)]].
Proof. repeat split; vm_compute; reflexivity. Qed.

(** The same request through [Logging]: the stamped [X-Trace-ID] is the
    fresh id of the context, and the record has it once. *)
Example Logging_req42_stamps_trace_id :
  let out := Logging fixtures.log0 fixtures.hello transport fixtures.req42
               fixtures.state0 in
  fst out = Ret tt
  /\ resp_header (st_resp (snd out)) !! "X-Request-ID" = Some ["req-42"]
  /\ resp_header (st_resp (snd out)) !! "X-Trace-ID" = Some ["0000000f-951a-4f"]
  /\ map (fun ev => fields_named "trace_id" (ev_fields ev)) (st_logs (snd out))
     = [[("trace_id", AStr "0000000f-951a-4f")]].
Proof. repeat split; vm_compute; reflexivity. Qed.

(** X12: [Logging], the sibling of [TracedLogging], stamps the resolved ids, so
    they survive a hop: a request that carries the stamped headers resolves
    to the same request id and trace id, whatever else the next hop's state
    is. *)
Lemma Logging_round_trip (r r2 : Request) (s s2 : State) :
  Header r2 = resp_header (st_resp (snd (Logging_resolve transport r s))) ->
  resolved_ids id (fst (Logging_resolve transport r2 s2))
  = resolved_ids id (fst (Logging_resolve transport r s))
  /\ resolved_ids id (fst (Logging_resolve transport r s)) <> None.
Proof.
  intros Hheaders.
  destruct (Logging_resolve_run r s) as (ctx & s' & Hrun & Hrid & Htid & Hh1 & Hh2).
  destruct (Logging_resolve_run r2 s2) as (ctx2 & s2' & Hrun2 & Hrid2 & Htid2 & _).
  rewrite Hrun in Hheaders |- *. cbn [fst snd] in Hheaders |- *.
  rewrite Hrun2. cbn [fst resolved_ids id]. split; [|discriminate].
  rewrite Hheaders, Hh1 in Hrid2. rewrite Hheaders, Hh1, Hh2 in Htid2.
  assert (Hne1 : is_empty (logger.GetRequestID ctx) = false).
  { rewrite Hrid. destruct (is_empty (Header_Get (Header r) "X-Request-ID")) eqn:He;
      [reflexivity|exact He]. }
  assert (Hne2 : is_empty (logger.GetTraceID ctx) = false).
  { rewrite Htid. destruct (is_empty (Header_Get (Header r) "X-Trace-ID")) eqn:He;
      [reflexivity|exact He]. }
  rewrite Hne1 in Hrid2. rewrite Hne2 in Htid2. rewrite Hrid2, Htid2. reflexivity.
Qed.

(** X14: In [TracedLogging] the request id survives the hop in every case. *)
Lemma TracedLogging_round_trip_request_id (r r2 : Request) (s s2 : State) :
  Header r2 = resp_header (st_resp (snd (TracedLogging_resolve transport r s))) ->
  option_map fst (resolved_ids (fun ids => fst (fst ids))
                    (fst (TracedLogging_resolve transport r2 s2)))
  = option_map fst (resolved_ids (fun ids => fst (fst ids))
                      (fst (TracedLogging_resolve transport r s))).
Proof.
  intros Hheaders.
  destruct (TracedLogging_resolve_run r s) as (ctx & s' & Hrun & Hrid & _ & Hh1 & _).
  destruct (TracedLogging_resolve_run r2 s2) as (ctx2 & s2' & Hrun2 & Hrid2 & _).
  rewrite Hrun in Hheaders |- *. cbn [fst snd] in Hheaders |- *.
  rewrite Hrun2. cbn [fst resolved_ids option_map]. f_equal.
  rewrite Hheaders, Hh1 in Hrid2.
  assert (Hne1 : is_empty (logger.GetRequestID ctx) = false).
  { rewrite Hrid. destruct (is_empty (Header_Get (Header r) "X-Request-ID")) eqn:He;
      [reflexivity|exact He]. }
  rewrite Hne1 in Hrid2. exact Hrid2.
Qed.

(** X13: In [TracedLogging] the trace id survives the hop as well whenever the
    first hop stamped one (it had a span or a non-empty inbound header) and
    the next hop has no span of its own. *)
Lemma TracedLogging_round_trip_when_stamped (r r2 : Request) (s s2 : State) :
  Header r2 = resp_header (st_resp (snd (TracedLogging_resolve transport r s))) ->
  HasTraceID (ctx_span (req_Context r2)) = false ->
  is_empty (Header_Get (resp_header (st_resp (snd (TracedLogging_resolve transport r s))))
              "X-Trace-ID") = false ->
  resolved_ids (fun ids => fst (fst ids)) (fst (TracedLogging_resolve transport r2 s2))
  = resolved_ids (fun ids => fst (fst ids)) (fst (TracedLogging_resolve transport r s)).
Proof.
  intros Hheaders Hnospan Hstamped.
  destruct (TracedLogging_resolve_run r s) as (ctx & s' & Hrun & Hrid & Htid & Hh1 & Hh2).
  destruct (TracedLogging_resolve_run r2 s2) as (ctx2 & s2' & Hrun2 & Hrid2 & Htid2 & _).
  rewrite Hrun in Hheaders, Hstamped |- *. cbn [fst snd] in Hheaders, Hstamped |- *.
  rewrite Hrun2. cbn [fst resolved_ids].
  rewrite Hheaders, Hh1 in Hrid2. rewrite Hnospan, Hheaders, Hh2 in Htid2.
  rewrite Hh2 in Hstamped. rewrite Hstamped in Htid, Htid2.
  assert (Hne1 : is_empty (logger.GetRequestID ctx) = false).
  { rewrite Hrid. destruct (is_empty (Header_Get (Header r) "X-Request-ID")) eqn:He;
      [reflexivity|exact He]. }
  rewrite Hne1 in Hrid2. rewrite Hrid2, Htid2, Htid. reflexivity.
Qed.

(** Whenever the request has neither a span trace id nor an [X-Trace-ID]
    value, [TracedLogging] stamps an empty [X-Trace-ID] although the context
    it resolved holds a trace id that is not empty. *)
Lemma TracedLogging_stamps_empty_trace_id (r : Request) (s : State) :
  HasTraceID (ctx_span (req_Context r)) = false ->
  Header_Get (Header r) "X-Trace-ID" = EmptyString ->
  let hop := TracedLogging_resolve transport r s in
  Header_Get (resp_header (st_resp (snd hop))) "X-Trace-ID" = EmptyString
  /\ exists requestId traceId,
       resolved_ids (fun ids => fst (fst ids)) (fst hop) = Some (requestId, traceId)
       /\ is_empty traceId = false.
Proof.
  intros Hnospan Hnoheader hop. subst hop.
  destruct (TracedLogging_resolve_run r s) as (ctx & s' & Hrun & _ & Htid & _ & Hh2).
  rewrite Hrun. cbn [fst snd resolved_ids].
  rewrite Hnospan, Hnoheader in Htid, Hh2. split; [exact Hh2|].
  eexists _, _. split; [reflexivity|]. rewrite Htid. reflexivity.
Qed.

(** C5 at a request without [X-Trace-ID] and without a span: the first hop
    puts a fresh trace id into its context but stamps an empty [X-Trace-ID];
    the next hop, fed the stamped headers, keeps the request id and
    generates another trace id. *)
Theorem TracedLogging_round_trip_loses_trace_id :
  let hop1 := TracedLogging_resolve transport fixtures.bare fixtures.state0 in
  let hop2 := TracedLogging_resolve transport (fixtures.downstream (st_resp (snd hop1)))
                (snd hop1) in
  resolved_ids (fun ids => fst (fst ids)) (fst hop1)
  = Some ("0000000f-951a-4fa3-a286-c94f0e766c35", "0000001f-2a35-4f")
  /\ Header_Get (resp_header (st_resp (snd hop1))) "X-Request-ID"
     = "0000000f-951a-4fa3-a286-c94f0e766c35"
  /\ Header_Get (resp_header (st_resp (snd hop1))) "X-Trace-ID" = EmptyString
  /\ resolved_ids (fun ids => fst (fst ids)) (fst hop2)
     = Some ("0000000f-951a-4fa3-a286-c94f0e766c35", "0000003e-546a-4e").
Proof. repeat split; vm_compute; reflexivity. Qed.

(** ** The chain of [main]: Recovery, then TracedLogging, then MetricsMiddleware *)

(** A handler that panics under the whole chain: the client gets 500, the
    panic is counted once, the gauge is back at zero, and the only record is
    the error-level one ([TracedLogging] never reaches its own log call). *)
Example chain_of_main_on_panic :
  let m := ptrMetrics in
  let chain := Chain [Recovery fixtures.log0 m; TracedLogging fixtures.log0;
                      MetricsMiddleware m] in
  let out := chain fixtures.boom transport fixtures.req42 fixtures.state0 in
  fst out = Ret tt
  /\ sent_status (st_resp (snd out)) = Some 500%Z
  /\ RequestsInFlight (st_metrics (snd out)) = 0%Z
  /\ PanicRecoveries (st_metrics (snd out)) = 1%nat
  /\ map (fun ev => (ev_level ev, ev_msg ev)) (st_logs (snd out))
     = [(ErrorLevel, "Panic recovered")].
Proof. repeat split; vm_compute; reflexivity. Qed.

(** The same chain around a handler that answers 404. *)
Example chain_of_main_on_404 :
  let m := ptrMetrics in
  let chain := Chain [Recovery fixtures.log0 m; TracedLogging fixtures.log0;
                      MetricsMiddleware m] in
  let out := chain (fixtures.respond 404) transport fixtures.req42 fixtures.state0 in
  fst out = Ret tt
  /\ sent_status (st_resp (snd out)) = Some 404%Z
  /\ RequestsInFlight (st_metrics (snd out)) = 0%Z
  /\ RequestsTotal (st_metrics (snd out)) !! ("GET", "/api/hello", "404") = Some 1%nat
  /\ map (fun ev => (ev_level ev, ev_msg ev, fields_named "status" (ev_fields ev)))
         (st_logs (snd out))
     = [(InfoLevel, "HTTP request completed", [("status", AInt 404)])].
Proof. repeat split; vm_compute; reflexivity. Qed.

(** * Further properties of the code *)

(** ** Recovery and MetricsMiddleware on the other paths *)

(** X1: When the wrapped handler returns normally, [Recovery] adds nothing: no
    record, no count, no write; the outcome is the handler's own. *)
Theorem Recovery_transparent (log : logger.Logger) (m : MetricsPtr) (next : Handler)
    (w : ResponseWriter) (r : Request) (s s1 : State) :
  next w r s = (Ret tt, s1) ->
  Recovery log m next w r s = (Ret tt, s1).
Proof.
  intros Hret. unfold Recovery, defer_recover. rewrite Hret. reflexivity.
Qed.

Lemma Recovery_transparent_witness :
  Recovery fixtures.log0 ptrMetrics (fixtures.respond 404) transport fixtures.req42
    fixtures.state0
  = fixtures.respond 404 transport fixtures.req42 fixtures.state0.
Proof.
  rewrite (Recovery_transparent fixtures.log0 ptrMetrics (fixtures.respond 404) transport
             fixtures.req42 fixtures.state0
             (snd (fixtures.respond 404 transport fixtures.req42 fixtures.state0))
             eq_refl).
  reflexivity.
Defined.

(** X2: When the inner handler panics, [MetricsMiddleware] passes the panic on
    with its value and records nothing about the request: the request counter
    and the duration histogram stay as the handler left them; only the gauge
    is taken back. *)
Theorem MetricsMiddleware_panic_not_counted (next : Handler) (w : ResponseWriter)
    (r : Request) (s s1 : State) (v : Any) :
  let rw := {| rw_ResponseWriter := w; rw_addr := length (st_heap s) |} in
  let s_in := snd (Gauge_Inc (snd (new_responseWriter w 200 s))) in
  next (as_writer rw) r s_in = (Panic v, s1) ->
  let out := MetricsMiddleware ptrMetrics next w r s in
  fst out = Panic v
  /\ RequestsTotal (st_metrics (snd out)) = RequestsTotal (st_metrics s1)
  /\ RequestDuration (st_metrics (snd out)) = RequestDuration (st_metrics s1)
  /\ PanicRecoveries (st_metrics (snd out)) = PanicRecoveries (st_metrics s1)
  /\ st_logs (snd out) = st_logs s1
  /\ st_resp (snd out) = st_resp s1.
Proof.
  intros rw s_in Hnext out. subst out. unfold MetricsMiddleware. run.
  change (next _ r _) with (next (as_writer rw) r s_in). rewrite Hnext.
  run. repeat (split; [reflexivity|]). reflexivity.
Qed.

Lemma MetricsMiddleware_panic_not_counted_witness :
  let out := MetricsMiddleware ptrMetrics fixtures.partial_boom transport fixtures.req42
               fixtures.state0 in
  fst out = Panic (AStr "boom")
  /\ RequestsTotal (st_metrics (snd out)) = ∅
  /\ RequestDuration (st_metrics (snd out)) = ∅.
Proof.
  intros out.
  pose (rw := {| rw_ResponseWriter := transport;
                 rw_addr := length (st_heap fixtures.state0) |}).
  pose (s_in := snd (Gauge_Inc (snd (new_responseWriter transport 200 fixtures.state0)))).
  pose (inner := fixtures.partial_boom (as_writer rw) fixtures.req42 s_in).
  assert (Hinner : inner = (Panic (AStr "boom"), snd inner)) by reflexivity.
  destruct (MetricsMiddleware_panic_not_counted fixtures.partial_boom transport
              fixtures.req42 fixtures.state0 (snd inner) (AStr "boom") Hinner)
    as (Hpanic & Htotal & Hduration & _).
  exact (conj Hpanic (conj Htotal Hduration)).
Defined.

(** X3: With a nil [*Metrics], [MetricsMiddleware] panics on the nil pointer
    before it touches the gauge or calls the handler: the outcome is the same
    for every handler, and response, log and collectors are as before. *)
Theorem MetricsMiddleware_nil_panics (next next' : Handler) (w : ResponseWriter)
    (r : Request) (s : State) :
  let out := MetricsMiddleware nilMetrics next w r s in
  (exists text, fst out = Panic (AErr text))
  /\ out = MetricsMiddleware nilMetrics next' w r s
  /\ st_metrics (snd out) = st_metrics s
  /\ st_logs (snd out) = st_logs s
  /\ st_resp (snd out) = st_resp s.
Proof.
  intros out. subst out. unfold MetricsMiddleware. run.
  split; [eexists; reflexivity|]. repeat (split; [reflexivity|]). reflexivity.
Qed.

(** ** The response wrapper *)

(** X4: The wrapper's [statusCode] follows every [WriteHeader] that goes through
    it, whatever the server makes of the call: after the call the field holds
    the code, also when the server rejects the code or, the header being out
    already, ignores the call, in which case the status the client got stays. *)
Theorem responseWriter_WriteHeader_last_code (rw : responseWriter) (code : Z) (s : State) :
  rw_ResponseWriter rw = transport ->
  rw_addr rw < length (st_heap s) ->
  let out := WriteHeader (as_writer rw) code s in
  fst (statusCode rw (snd out)) = Ret code
  /\ (wroteHeader (st_resp s) = true ->
      fst out = Ret tt /\ sent_status (st_resp (snd out)) = sent_status (st_resp s)).
Proof.
  intros Hw Haddr out. subst out. destruct rw as [w addr]. cbn in Hw, Haddr. subst w.
  run. split.
  - destruct (negb _ && _); project;
      rewrite list_lookup_insert_eq by exact Haddr; reflexivity.
  - intros Hsent. rewrite Hsent. cbn [negb andb]. project.
    split; [reflexivity|]. unfold sent_status, wroteHeader in *. project.
    destruct (resp_calls (st_resp s)) as [|[] ?]; [discriminate|reflexivity..].
Qed.

Lemma responseWriter_WriteHeader_last_code_witness :
  let rw := {| rw_ResponseWriter := transport; rw_addr := 0 |} in
  let s := snd (fixtures.respond 200 (as_writer rw) fixtures.req42
                  (snd (new_responseWriter transport 200 fixtures.state0))) in
  let out := WriteHeader (as_writer rw) 500 s in
  fst (statusCode rw (snd out)) = Ret 500%Z
  /\ sent_status (st_resp (snd out)) = Some 200%Z.
Proof.
  intros rw s out.
  assert (Haddr : rw_addr rw < length (st_heap s)) by (vm_compute; lia).
  destruct (responseWriter_WriteHeader_last_code rw 500 s eq_refl Haddr)
    as (Hcode & Hkept).
  destruct (Hkept eq_refl) as (_ & Hstatus).
  exact (conj Hcode Hstatus).
Defined.

(** ** Chain *)

(** X5: Chaining a concatenation is chaining the two parts one inside the
    other. *)
Theorem Chain_app (ms1 ms2 : list (Handler -> Handler)) (t : Handler) :
  Chain (ms1 ++ ms2) t = Chain ms1 (Chain ms2 t).
Proof.
  unfold Chain. rewrite !Chain_loop_take by lia. rewrite !firstn_all.
  apply fold_right_app.
Qed.

(** ** The resolver of TracedLogging, in full *)

(** Everything [TracedLogging] does before it calls the handler, on the
    server's writer: the ids of the context, the three headers, the number of
    UUIDs drawn, and that nothing else of the state moves. *)
Lemma TracedLogging_resolve_frame (r : Request) (s : State) :
  let span := ctx_span (req_Context r) in
  let inboundRequestID := Header_Get (Header r) "X-Request-ID" in
  let otelTraceID :=
    if HasTraceID span then TraceID_String span else Header_Get (Header r) "X-Trace-ID" in
  let otelSpanID := if HasSpanID span then SpanID_String span else EmptyString in
  let k1 := if is_empty inboundRequestID then 1%nat else 0%nat in
  let k2 := if is_empty otelTraceID then 1%nat else 0%nat in
  exists ctx s',
    TracedLogging_resolve transport r s = (Ret (ctx, otelTraceID, otelSpanID), s')
    /\ logger.GetRequestID ctx
       = (if is_empty inboundRequestID then fresh s 0 else inboundRequestID)
    /\ logger.GetSpanID ctx
       = (if HasSpanID span then SpanID_String span
          else String.substring 0 8 (fresh s (k2 + k1)))
    /\ ctx_span ctx = span
    /\ Header_Get (resp_header (st_resp s')) "X-Request-ID" = logger.GetRequestID ctx
    /\ resp_header (st_resp s') !! "X-Span-ID"
       = (if HasSpanID span then Some [SpanID_String span]
          else resp_header (st_resp s) !! "X-Span-ID")
    /\ resp_calls (st_resp s') = resp_calls (st_resp s)
    /\ st_draws s' = S (k2 + (k1 + st_draws s))
    /\ (st_heap s', st_logs s', st_metrics s', st_attrs s', st_now s')
       = (st_heap s, st_logs s, st_metrics s, st_attrs s, st_now s).
Proof.
  intros span inboundRequestID otelTraceID otelSpanID k1 k2.
  unfold TracedLogging_resolve, tracing.GetTraceID, tracing.GetSpanID.
  fold span. fold inboundRequestID.
  assert (Hotel : (if is_empty (if HasTraceID span then TraceID_String span else EmptyString)
                   then Header_Get (Header r) "X-Trace-ID"
                   else if HasTraceID span then TraceID_String span else EmptyString)
                  = otelTraceID).
  { subst otelTraceID. destruct (HasTraceID span); reflexivity. }
  rewrite Hotel.
  assert (Hspan : is_empty (if HasSpanID span then SpanID_String span else EmptyString)
                  = negb (HasSpanID span)).
  { destruct (HasSpanID span); reflexivity. }
  rewrite Hspan. subst otelSpanID.
  unfold bind at 1. rewrite ExtractTraceContext_run. fold k1. fold k2.
  destruct (HasSpanID span); cbn [negb]; run;
    (eexists; eexists; split; [reflexivity|]); project;
    (split; [reflexivity|]); (split; [reflexivity|]); (split; [reflexivity|]).
  - split; [rewrite !Header_Get_Set_other by discriminate; apply Header_Get_Set|].
    split; [unfold Header_Set; apply lookup_insert_eq|].
    repeat (split; [reflexivity|]). reflexivity.
  - split; [rewrite Header_Get_Set_other by discriminate; apply Header_Get_Set|].
    split; [unfold Header_Set; rewrite !lookup_insert_ne by discriminate; reflexivity|].
    repeat (split; [reflexivity|]). reflexivity.
Qed.

(** X8: In [TracedLogging] the span id of the resolved context is the tracer's
    whenever the active span has one, and a fresh one otherwise; the response
    gets an [X-Span-ID] header, with the tracer's id, only in the first case:
    without a span id the middleware leaves that header alone. *)
Theorem TracedLogging_span_id (r : Request) (s : State) :
  let span := ctx_span (req_Context r) in
  let hop := TracedLogging_resolve transport r s in
  exists ctx otelTraceID otelSpanID,
    fst hop = Ret (ctx, otelTraceID, otelSpanID)
    /\ (if HasSpanID span
        then logger.GetSpanID ctx = SpanID_String span
             /\ otelSpanID = SpanID_String span
             /\ Header_Get (resp_header (st_resp (snd hop))) "X-Span-ID"
                = SpanID_String span
        else String.length (logger.GetSpanID ctx) = 8%nat
             /\ otelSpanID = EmptyString
             /\ resp_header (st_resp (snd hop)) !! "X-Span-ID"
                = resp_header (st_resp s) !! "X-Span-ID").
Proof.
  intros span hop. subst hop.
  destruct (TracedLogging_resolve_frame r s)
    as (ctx & s' & Hrun & _ & Hsid & _ & _ & Hheader & _).
  fold span in Hrun, Hsid, Hheader. rewrite Hrun. cbn [fst snd].
  eexists ctx, _, _. split; [reflexivity|].
  destruct (HasSpanID span).
  - split; [exact Hsid|]. split; [reflexivity|].
    unfold Header_Get. rewrite Hheader. reflexivity.
  - split; [rewrite Hsid; reflexivity|]. split; [reflexivity|exact Hheader].
Qed.

(** ** What the logging middlewares record *)

Lemma get_string_nonempty (ctx : Context) (key : string) :
  is_empty (logger.get_string ctx key) = false ->
  context_Value ctx key = Some (AStr (logger.get_string ctx key)).
Proof.
  unfold logger.get_string.
  destruct (context_Value ctx key) as [[v| |]|]; try discriminate. reflexivity.
Qed.

Lemma resolved_request_id_nonempty (inbound : string) (s : State) :
  is_empty (if is_empty inbound then fresh s 0 else inbound) = false.
Proof. destruct (is_empty inbound) eqn:He; [reflexivity|exact He]. Qed.

(** The whole of [TracedLogging] around a handler that returns: the state
    the handler left, with the two span attributes and the one record added. *)
Lemma TracedLogging_ret_run (log : logger.Logger) (next : Handler) (r : Request)
    (s s' s2 : State) (ctx : Context) (otelTraceID otelSpanID : string) :
  TracedLogging_resolve transport r s = (Ret (ctx, otelTraceID, otelSpanID), s') ->
  next (as_writer {| rw_ResponseWriter := transport; rw_addr := length (st_heap s') |})
       (Request_WithContext r ctx) (snd (new_responseWriter transport 200 s'))
  = (Ret tt, s2) ->
  let status := default 0%Z (st_heap s2 !! length (st_heap s')) in
  let duration_ms := Milliseconds (st_now s2 - st_now s) in
  exists ev s_out,
    TracedLogging log next transport r s = (Ret tt, s_out)
    /\ st_logs s_out = st_logs s2 ++ [ev]
    /\ st_attrs s_out = st_attrs s2 ++ [("http.status_code", AInt status);
                                        ("http.duration_ms", AInt duration_ms)]
    /\ (st_resp s_out, st_heap s_out, st_metrics s_out, st_now s_out)
       = (st_resp s2, st_heap s2, st_metrics s2, st_now s2)
    /\ ev_level ev = InfoLevel /\ ev_msg ev = "HTTP request completed"
    /\ ev_fields ev
       = zl_context (logger.WithContext log ctx)
         ++ map_to_list (list_to_map [
              ("method", AStr (Method r));
              ("path", AStr (URL_Path r));
              ("status", AInt status);
              ("duration_ms", AInt duration_ms);
              ("remote_addr", AStr (RemoteAddr r));
              ("user_agent", AStr (UserAgent r));
              ("trace_id", AStr otelTraceID);
              ("span_id", AStr otelSpanID)] : gmap string Any).
Proof.
  intros Hrun Hnext status duration_ms. subst status duration_ms.
  eexists _, _. split.
  - unfold TracedLogging. unfold bind at 1, time_Now, get. cbv beta iota.
    unfold bind at 1. rewrite Hrun. run. fold_call Hnext. rewrite Hnext. run.
    reflexivity.
  - project. repeat (split; [reflexivity|]). cbn [ev_fields].
    apply WithFields_context.
Qed.

Lemma TracedLogging_panic_run (log : logger.Logger) (next : Handler) (r : Request)
    (s s' s2 : State) (ctx : Context) (otelTraceID otelSpanID : string) (v : Any) :
  TracedLogging_resolve transport r s = (Ret (ctx, otelTraceID, otelSpanID), s') ->
  next (as_writer {| rw_ResponseWriter := transport; rw_addr := length (st_heap s') |})
       (Request_WithContext r ctx) (snd (new_responseWriter transport 200 s'))
  = (Panic v, s2) ->
  TracedLogging log next transport r s = (Panic v, s2).
Proof.
  intros Hrun Hnext.
  unfold TracedLogging. unfold bind at 1, time_Now, get. cbv beta iota.
  unfold bind at 1. rewrite Hrun. run. fold_call Hnext. rewrite Hnext. reflexivity.
Qed.

(** What [fst hop = Ret ids] says about the whole outcome of the resolver. *)
Lemma resolved_run {A : Type} (hop : Result A * State) (a : A) :
  fst hop = Ret a -> hop = (Ret a, snd hop).
Proof. destruct hop as [res s']. cbn. intros ->. reflexivity. Qed.

(** X9: When the handler returns normally, [TracedLogging] returns normally and
    hands one info-level record "HTTP request completed" to the logger.  The
    record's [request_id] is the value stamped on the response as
    [X-Request-ID] before the handler ran; its [status] is the code held by
    the response wrapper and its [duration_ms] the elapsed time in whole
    milliseconds, and the same two values are given to the span. *)
Theorem TracedLogging_completion_record (log : logger.Logger) (next : Handler)
    (r : Request) (s s2 : State) (ctx : Context) (otelTraceID otelSpanID : string) :
  let hop := TracedLogging_resolve transport r s in
  let rw := {| rw_ResponseWriter := transport; rw_addr := length (st_heap (snd hop)) |} in
  let s_in := snd (new_responseWriter transport 200 (snd hop)) in
  fst hop = Ret (ctx, otelTraceID, otelSpanID) ->
  next (as_writer rw) (Request_WithContext r ctx) s_in = (Ret tt, s2) ->
  let status := default 0%Z (st_heap s2 !! rw_addr rw) in
  let duration_ms := Milliseconds (st_now s2 - st_now s) in
  let out := TracedLogging log next transport r s in
  fst out = Ret tt
  /\ st_attrs (snd out)
     = st_attrs s2 ++ [("http.status_code", AInt status);
                       ("http.duration_ms", AInt duration_ms)]
  /\ exists ev,
       st_logs (snd out) = st_logs s2 ++ [ev]
       /\ ev_level ev = InfoLevel /\ ev_msg ev = "HTTP request completed"
       /\ (("request_id",
           AStr (Header_Get (resp_header (st_resp s_in)) "X-Request-ID")) : string * Any) ∈ ev_fields ev
       /\ (("status", AInt status) : string * Any) ∈ ev_fields ev
       /\ (("duration_ms", AInt duration_ms) : string * Any) ∈ ev_fields ev.
Proof.
  intros hop rw s_in Hhop Hnext status duration_ms out.
  destruct (TracedLogging_resolve_run r s) as (ctx0 & s' & Hrun0 & Hrid & _ & Hheader & _).
  pose proof (resolved_run hop _ Hhop) as Hrun.
  subst hop rw s_in status duration_ms out.
  assert (Hs' : s' = snd (TracedLogging_resolve transport r s))
    by (rewrite Hrun0; reflexivity).
  assert (Hctx : ctx0 = ctx).
  { rewrite Hrun0 in Hhop.
    exact (f_equal (fun res => match res with
                               | Ret ids => fst (fst ids)
                               | Panic _ => ctx
                               end) Hhop). }
  subst s' ctx0.
  destruct (TracedLogging_ret_run log next r s _ s2 ctx _ _ Hrun Hnext)
    as (ev & s_out & Hout & Hlogs & Hattrs & _ & Hlvl & Hmsg & Hfields).
  rewrite Hout. cbn [fst snd].
  split; [reflexivity|]. split; [exact Hattrs|].
  exists ev. split; [exact Hlogs|]. split; [exact Hlvl|]. split; [exact Hmsg|].
  rewrite Hfields. split; [|split].
  - apply elem_of_app. left. unfold new_responseWriter. project. rewrite Hheader.
    assert (Hne : is_empty (logger.GetRequestID ctx) = false)
      by (rewrite Hrid; apply resolved_request_id_nonempty).
    apply (WithContext_field log ctx logger.RequestIDKey).
    + apply elem_of_cons. left. reflexivity.
    + apply get_string_nonempty. exact Hne.
    + exact Hne.
  - apply elem_of_app. right. apply elem_of_map_to_list. reflexivity.
  - apply elem_of_app. right. apply elem_of_map_to_list. reflexivity.
Qed.

Lemma TracedLogging_completion_record_witness :
  let out := TracedLogging fixtures.log0 (fixtures.respond 404) transport fixtures.req42
               fixtures.state0 in
  fst out = Ret tt
  /\ st_attrs (snd out) = [] ++ [("http.status_code", AInt 404); ("http.duration_ms", AInt 0)]
  /\ exists ev,
       st_logs (snd out) = [] ++ [ev]
       /\ ev_level ev = InfoLevel /\ ev_msg ev = "HTTP request completed"
       /\ (("request_id", AStr "req-42") : string * Any) ∈ ev_fields ev
       /\ (("status", AInt 404) : string * Any) ∈ ev_fields ev
       /\ (("duration_ms", AInt 0) : string * Any) ∈ ev_fields ev.
Proof.
  intros out.
  pose (hop := TracedLogging_resolve transport fixtures.req42 fixtures.state0).
  pose (rw := {| rw_ResponseWriter := transport; rw_addr := length (st_heap (snd hop)) |}).
  pose (s_in := snd (new_responseWriter transport 200 (snd hop))).
  pose (ctx := fst (fst (match fst hop with
                         | Ret ids => ids
                         | Panic _ => (fixtures.background, EmptyString, EmptyString)
                         end))).
  pose (inner := fixtures.respond 404 (as_writer rw)
                   (Request_WithContext fixtures.req42 ctx) s_in).
  assert (Hhop : fst hop = Ret (ctx, EmptyString, EmptyString)) by reflexivity.
  assert (Hinner : inner = (Ret tt, snd inner)) by reflexivity.
  exact (TracedLogging_completion_record fixtures.log0 (fixtures.respond 404)
           fixtures.req42 fixtures.state0 (snd inner) ctx EmptyString EmptyString
           Hhop Hinner).
Defined.

(** X10: When the handler panics, [TracedLogging] has nothing deferred: the panic
    goes to the caller with its value, no completion record is written and
    no attribute is given to the span; log and span are as the handler left
    them. *)
Theorem TracedLogging_panic_leaves_no_record (log : logger.Logger) (next : Handler)
    (r : Request) (s s2 : State) (ctx : Context) (otelTraceID otelSpanID : string)
    (v : Any) :
  let hop := TracedLogging_resolve transport r s in
  let rw := {| rw_ResponseWriter := transport; rw_addr := length (st_heap (snd hop)) |} in
  let s_in := snd (new_responseWriter transport 200 (snd hop)) in
  fst hop = Ret (ctx, otelTraceID, otelSpanID) ->
  next (as_writer rw) (Request_WithContext r ctx) s_in = (Panic v, s2) ->
  let out := TracedLogging log next transport r s in
  fst out = Panic v
  /\ st_logs (snd out) = st_logs s2
  /\ st_attrs (snd out) = st_attrs s2.
Proof.
  intros hop rw s_in Hhop Hnext out.
  pose proof (resolved_run hop _ Hhop) as Hrun.
  subst hop rw s_in out.
  rewrite (TracedLogging_panic_run log next r s _ s2 ctx _ _ v Hrun Hnext).
  repeat split.
Qed.

Lemma TracedLogging_panic_leaves_no_record_witness :
  let out := TracedLogging fixtures.log0 fixtures.boom transport fixtures.req42
               fixtures.state0 in
  fst out = Panic (AStr "boom") /\ st_logs (snd out) = [] /\ st_attrs (snd out) = [].
Proof.
  intros out.
  pose (hop := TracedLogging_resolve transport fixtures.req42 fixtures.state0).
  pose (s_in := snd (new_responseWriter transport 200 (snd hop))).
  pose (ctx := fst (fst (match fst hop with
                         | Ret ids => ids
                         | Panic _ => (fixtures.background, EmptyString, EmptyString)
                         end))).
  assert (Hhop : fst hop = Ret (ctx, EmptyString, EmptyString)) by reflexivity.
  exact (TracedLogging_panic_leaves_no_record fixtures.log0 fixtures.boom
           fixtures.req42 fixtures.state0 s_in ctx EmptyString EmptyString
           (AStr "boom") Hhop eq_refl).
Defined.

(** X11: When the handler returns normally, [Logging] hands one info-level record
    to the logger whose [request_id] and [trace_id] are the values it stamped
    on the response as [X-Request-ID] and [X-Trace-ID], neither of them
    empty. *)
Theorem Logging_record_matches_headers (log : logger.Logger) (next : Handler)
    (r : Request) (s s2 : State) (ctx : Context) :
  let hop := Logging_resolve transport r s in
  let rw := {| rw_ResponseWriter := transport; rw_addr := length (st_heap (snd hop)) |} in
  let s_in := snd (new_responseWriter transport 200 (snd hop)) in
  fst hop = Ret ctx ->
  next (as_writer rw) (Request_WithContext r ctx) s_in = (Ret tt, s2) ->
  let requestId := Header_Get (resp_header (st_resp s_in)) "X-Request-ID" in
  let traceId := Header_Get (resp_header (st_resp s_in)) "X-Trace-ID" in
  let out := Logging log next transport r s in
  fst out = Ret tt
  /\ is_empty requestId = false /\ is_empty traceId = false
  /\ exists ev,
       st_logs (snd out) = st_logs s2 ++ [ev]
       /\ ev_level ev = InfoLevel /\ ev_msg ev = "HTTP request completed"
       /\ (("request_id", AStr requestId) : string * Any) ∈ ev_fields ev
       /\ (("trace_id", AStr traceId) : string * Any) ∈ ev_fields ev.
Proof.
  intros hop rw s_in Hhop Hnext requestId traceId out.
  destruct (Logging_resolve_run r s) as (ctx0 & s' & Hrun & Hrid & Htid & Hh1 & Hh2).
  subst hop rw s_in requestId traceId out. rewrite Hrun in *. cbn [fst snd] in *.
  assert (Hctx : ctx0 = ctx)
    by exact (f_equal (fun res => match res with Ret c => c | Panic _ => ctx end) Hhop).
  subst ctx0.
  assert (Hne1 : is_empty (logger.GetRequestID ctx) = false)
    by (rewrite Hrid; apply resolved_request_id_nonempty).
  assert (Hne2 : is_empty (logger.GetTraceID ctx) = false).
  { rewrite Htid. destruct (is_empty (Header_Get (Header r) "X-Trace-ID")) eqn:He;
      [reflexivity|exact He]. }
  eassert (Hout : Logging log next transport r s = _).
  { unfold Logging. unfold bind at 1, time_Now, get. cbv beta iota.
    unfold bind at 1. rewrite Hrun. run. fold_call Hnext. rewrite Hnext. run.
    reflexivity. }
  rewrite Hout. run. rewrite Hh1, Hh2.
  split; [reflexivity|]. split; [exact Hne1|]. split; [exact Hne2|].
  eexists. split; [reflexivity|]. split; [reflexivity|]. split; [reflexivity|].
  cbn [ev_fields]. rewrite WithFields_context. split; apply elem_of_app; left.
  - apply (WithContext_field log ctx logger.RequestIDKey).
    + apply elem_of_cons. left. reflexivity.
    + apply get_string_nonempty. exact Hne1.
    + exact Hne1.
  - apply (WithContext_field log ctx logger.TraceIDKey).
    + apply elem_of_cons. right. apply elem_of_cons. left. reflexivity.
    + apply get_string_nonempty. exact Hne2.
    + exact Hne2.
Qed.

Lemma Logging_record_matches_headers_witness :
  let out := Logging fixtures.log0 fixtures.hello transport fixtures.req42
               fixtures.state0 in
  fst out = Ret tt
  /\ exists ev,
       st_logs (snd out) = [] ++ [ev]
       /\ (("request_id", AStr "req-42") : string * Any) ∈ ev_fields ev
       /\ (("trace_id", AStr "0000000f-951a-4f") : string * Any) ∈ ev_fields ev.
Proof.
  intros out.
  pose (hop := Logging_resolve transport fixtures.req42 fixtures.state0).
  pose (rw := {| rw_ResponseWriter := transport; rw_addr := length (st_heap (snd hop)) |}).
  pose (s_in := snd (new_responseWriter transport 200 (snd hop))).
  pose (ctx := match fst hop with Ret c => c | Panic _ => fixtures.background end).
  pose (inner := fixtures.hello (as_writer rw) (Request_WithContext fixtures.req42 ctx) s_in).
  assert (Hhop : fst hop = Ret ctx) by reflexivity.
  assert (Hinner : inner = (Ret tt, snd inner)) by reflexivity.
  destruct (Logging_record_matches_headers fixtures.log0 fixtures.hello fixtures.req42
              fixtures.state0 (snd inner) ctx Hhop Hinner)
    as (Hret & _ & _ & ev & Hlogs & _ & _ & Hrid & Htid).
  split; [exact Hret|]. exists ev. exact (conj Hlogs (conj Hrid Htid)).
Defined.

(** ** The middleware stack of main *)

Lemma MetricsMiddleware_panic_run (next : Handler) (w : ResponseWriter) (r : Request)
    (s s1 : State) (v : Any) :
  next (as_writer {| rw_ResponseWriter := w; rw_addr := length (st_heap s) |}) r
       (snd (Gauge_Inc (snd (new_responseWriter w 200 s))))
  = (Panic v, s1) ->
  MetricsMiddleware ptrMetrics next w r s = (Panic v, snd (Gauge_Dec s1)).
Proof.
  intros Hnext. unfold MetricsMiddleware. run. fold_call Hnext. rewrite Hnext.
  reflexivity.
Qed.

Lemma MetricsMiddleware_ret_run (next : Handler) (w : ResponseWriter) (r : Request)
    (s s1 : State) :
  next (as_writer {| rw_ResponseWriter := w; rw_addr := length (st_heap s) |}) r
       (snd (Gauge_Inc (snd (new_responseWriter w 200 s))))
  = (Ret tt, s1) ->
  let status := default 0%Z (st_heap s1 !! length (st_heap s)) in
  MetricsMiddleware ptrMetrics next w r s
  = (Ret tt,
     snd (Gauge_Dec
            (snd (HistogramVec_Observe (Method r, URL_Path r) (st_now s1 - st_now s)
                    (snd (CounterVec_Inc (Method r, URL_Path r, Sprintf_d status) s1)))))).
Proof.
  intros Hnext status. unfold MetricsMiddleware. run. fold_call Hnext. rewrite Hnext.
  reflexivity.
Qed.

Lemma api_unfold (log : logger.Logger) (m : MetricsPtr) (next : Handler) :
  main.api log m next = Recovery log m (TracedLogging log (MetricsMiddleware m next)).
Proof. reflexivity. Qed.

(** X6: A panic under the stack of the [/api] routes.  The handler is entered
    with the gauge one above its value at the start of the request.  When it
    panics, the stack returns normally; the log gets the error-level record
    of [Recovery] and no completion record, the span no attribute; the
    request is counted neither in the request counter nor in the duration
    histogram; the gauge is one below what the handler left, the panic
    counter one above, and [http.Error] is called with 500. *)
Theorem api_panic (log : logger.Logger) (next : Handler) (r : Request) (s s2 : State)
    (ctx : Context) (otelTraceID otelSpanID : string) (v : Any) :
  let hop := TracedLogging_resolve transport r s in
  let rw1 := {| rw_ResponseWriter := transport; rw_addr := length (st_heap (snd hop)) |} in
  let s1 := snd (new_responseWriter transport 200 (snd hop)) in
  let rw2 := {| rw_ResponseWriter := as_writer rw1; rw_addr := length (st_heap s1) |} in
  let s_in := snd (Gauge_Inc (snd (new_responseWriter (as_writer rw1) 200 s1))) in
  fst hop = Ret (ctx, otelTraceID, otelSpanID) ->
  next (as_writer rw2) (Request_WithContext r ctx) s_in = (Panic v, s2) ->
  let out := main.api log ptrMetrics next transport r s in
  RequestsInFlight (st_metrics s_in) = (RequestsInFlight (st_metrics s) + 1)%Z
  /\ fst out = Ret tt
  /\ (exists ev, st_logs (snd out) = st_logs s2 ++ [ev]
                 /\ ev_level ev = ErrorLevel /\ ev_msg ev = "Panic recovered")
  /\ st_attrs (snd out) = st_attrs s2
  /\ RequestsTotal (st_metrics (snd out)) = RequestsTotal (st_metrics s2)
  /\ RequestDuration (st_metrics (snd out)) = RequestDuration (st_metrics s2)
  /\ RequestsInFlight (st_metrics (snd out)) = (RequestsInFlight (st_metrics s2) - 1)%Z
  /\ PanicRecoveries (st_metrics (snd out)) = S (PanicRecoveries (st_metrics s2))
  /\ resp_calls (st_resp (snd out))
     = resp_calls (st_resp s2) ++ [CallWriteHeader 500; CallWrite error_line].
Proof.
  intros hop rw1 s1 rw2 s_in Hhop Hnext out.
  pose proof (resolved_run hop _ Hhop) as Hrun.
  destruct (TracedLogging_resolve_frame r s) as (ctx0 & s' & Hrun0 & Hframe).
  assert (Hs' : s' = snd hop) by (subst hop; rewrite Hrun0; reflexivity).
  subst s'. destruct Hframe as (_ & _ & _ & _ & _ & _ & _ & Hsame).
  assert (Hgauge : RequestsInFlight (st_metrics s_in)
                   = (RequestsInFlight (st_metrics s) + 1)%Z).
  { pose proof (f_equal (fun t => snd (fst (fst t))) Hsame) as Hm. cbn [fst snd] in Hm.
    subst s_in s1. unfold Gauge_Inc, Gauge_Add, modify, new_responseWriter. project.
    rewrite Hm. reflexivity. }
  subst hop rw1 s1 rw2 s_in out.
  pose proof (MetricsMiddleware_panic_run next _ _ _ _ _ Hnext) as HM.
  pose proof (TracedLogging_panic_run log _ r s _ _ ctx _ _ v Hrun HM) as HT.
  rewrite api_unfold.
  split; [exact Hgauge|].
  split; [exact (Recovery_returns log ptrMetrics _ r s _ v HT)|].
  split.
  { destruct (Recovery_logs log ptrMetrics _ r s _ v HT) as (ev & Hev & Hlvl & Hmsg & _).
    exists ev. split; [exact Hev|]. split; assumption. }
  pose proof (Recovery_metrics log ptrMetrics _ r s _ v HT) as Hmetrics.
  pose proof (Recovery_calls log ptrMetrics _ r s _ v HT) as Hcalls.
  rewrite Hmetrics, Hcalls. clear Hmetrics Hcalls.
  unfold Recovery, defer_recover. rewrite HT. run.
  destruct (negb _ && _); project; repeat (split; [reflexivity|]); reflexivity.
Qed.

Lemma api_panic_witness :
  let out := main.api fixtures.log0 ptrMetrics fixtures.partial_boom transport
               fixtures.req42 fixtures.state0 in
  fst out = Ret tt
  /\ RequestsTotal (st_metrics (snd out)) = ∅
  /\ RequestsInFlight (st_metrics (snd out)) = 0%Z
  /\ PanicRecoveries (st_metrics (snd out)) = 1%nat
  /\ resp_calls (st_resp (snd out))
     = [CallWriteHeader 200; CallWrite "partial"; CallWriteHeader 500;
        CallWrite error_line].
Proof.
  intros out.
  pose (hop := TracedLogging_resolve transport fixtures.req42 fixtures.state0).
  pose (rw1 := {| rw_ResponseWriter := transport; rw_addr := length (st_heap (snd hop)) |}).
  pose (s1 := snd (new_responseWriter transport 200 (snd hop))).
  pose (rw2 := {| rw_ResponseWriter := as_writer rw1; rw_addr := length (st_heap s1) |}).
  pose (s_in := snd (Gauge_Inc (snd (new_responseWriter (as_writer rw1) 200 s1)))).
  pose (ctx := fst (fst (match fst hop with
                         | Ret ids => ids
                         | Panic _ => (fixtures.background, EmptyString, EmptyString)
                         end))).
  pose (inner := fixtures.partial_boom (as_writer rw2)
                   (Request_WithContext fixtures.req42 ctx) s_in).
  assert (Hhop : fst hop = Ret (ctx, EmptyString, EmptyString)) by reflexivity.
  assert (Hinner : inner = (Panic (AStr "boom"), snd inner)) by reflexivity.
  destruct (api_panic fixtures.log0 fixtures.partial_boom fixtures.req42 fixtures.state0
              (snd inner) ctx EmptyString EmptyString (AStr "boom") Hhop Hinner)
    as (_ & Hret & _ & _ & Htotal & _ & Hgauge & Hpanics & Hcalls).
  exact (conj Hret (conj Htotal (conj Hgauge (conj Hpanics Hcalls)))).
Defined.

(** X7: A normal return under the stack of the [/api] routes.  When the handler
    returns, the stack returns normally and writes nothing more to the
    response; the log gets the one info-level completion record, whose
    [request_id] is the value stamped as [X-Request-ID]; the request counter
    goes up by one under (method, path, code of the innermost wrapper) and
    the duration histogram gets one observation; the gauge is one below what
    the handler left and the panic counter is not touched. *)
Theorem api_normal_return (log : logger.Logger) (next : Handler) (r : Request)
    (s s2 : State) (ctx : Context) (otelTraceID otelSpanID : string) :
  let hop := TracedLogging_resolve transport r s in
  let rw1 := {| rw_ResponseWriter := transport; rw_addr := length (st_heap (snd hop)) |} in
  let s1 := snd (new_responseWriter transport 200 (snd hop)) in
  let rw2 := {| rw_ResponseWriter := as_writer rw1; rw_addr := length (st_heap s1) |} in
  let s_in := snd (Gauge_Inc (snd (new_responseWriter (as_writer rw1) 200 s1))) in
  fst hop = Ret (ctx, otelTraceID, otelSpanID) ->
  next (as_writer rw2) (Request_WithContext r ctx) s_in = (Ret tt, s2) ->
  let labels :=
    (Method r, URL_Path r, Sprintf_d (default 0%Z (st_heap s2 !! rw_addr rw2))) in
  let series := (Method r, URL_Path r) in
  let out := main.api log ptrMetrics next transport r s in
  fst out = Ret tt
  /\ st_resp (snd out) = st_resp s2
  /\ (exists ev, st_logs (snd out) = st_logs s2 ++ [ev]
                 /\ ev_level ev = InfoLevel /\ ev_msg ev = "HTTP request completed"
                 /\ (("request_id",
                      AStr (Header_Get (resp_header (st_resp s_in)) "X-Request-ID"))
                     : string * Any) ∈ ev_fields ev)
  /\ RequestsTotal (st_metrics (snd out))
     = <[labels := S (default 0%nat (RequestsTotal (st_metrics s2) !! labels))]>
         (RequestsTotal (st_metrics s2))
  /\ RequestDuration (st_metrics (snd out))
     = <[series := default [] (RequestDuration (st_metrics s2) !! series)
                   ++ [(st_now s2 - st_now s)%Z]]>
         (RequestDuration (st_metrics s2))
  /\ RequestsInFlight (st_metrics (snd out)) = (RequestsInFlight (st_metrics s2) - 1)%Z
  /\ PanicRecoveries (st_metrics (snd out)) = PanicRecoveries (st_metrics s2).
Proof.
  intros hop rw1 s1 rw2 s_in Hhop Hnext labels series out.
  pose proof (resolved_run hop _ Hhop) as Hrun.
  destruct (TracedLogging_resolve_frame r s)
    as (ctx0 & s' & Hrun0 & Hrid & _ & _ & Hheader & _ & _ & _ & Hsame).
  assert (Hs' : s' = snd hop) by (subst hop; rewrite Hrun0; reflexivity).
  assert (Hctx : ctx0 = ctx).
  { subst hop. rewrite Hrun0 in Hhop.
    exact (f_equal (fun res => match res with
                               | Ret ids => fst (fst ids)
                               | Panic _ => ctx
                               end) Hhop). }
  subst s' ctx0.
  pose proof (f_equal (fun t => snd t) Hsame) as Hnow. cbn [snd] in Hnow.
  assert (Hstamp : Header_Get (resp_header (st_resp s_in)) "X-Request-ID"
                   = logger.GetRequestID ctx).
  { subst s_in s1. unfold Gauge_Inc, Gauge_Add, modify, new_responseWriter. project.
    exact Hheader. }
  rewrite Hstamp.
  subst hop rw1 s1 rw2 s_in labels series out.
  pose proof (MetricsMiddleware_ret_run next _ _ _ _ Hnext) as HM. cbv zeta in HM.
  destruct (TracedLogging_ret_run log _ r s _ _ ctx _ _ Hrun HM)
    as (ev & s_out & HT & Hlogs & _ & Hframe & Hlvl & Hmsg & Hfields).
  rewrite api_unfold. unfold Recovery, defer_recover. rewrite HT. unfold ret.
  cbn [fst snd].
  pose proof (f_equal (fun t => fst (fst (fst t))) Hframe) as Hresp.
  pose proof (f_equal (fun t => snd (fst t)) Hframe) as Hmetrics.
  cbn [fst snd] in Hresp, Hmetrics.
  rewrite Hresp, Hmetrics, Hlogs.
  unfold new_responseWriter, CounterVec_Inc, HistogramVec_Observe, Gauge_Dec, Gauge_Add,
    modify. project.
  split; [reflexivity|]. split; [reflexivity|]. split.
  { exists ev. split; [reflexivity|]. split; [exact Hlvl|]. split; [exact Hmsg|].
    rewrite Hfields. apply elem_of_app. left.
    assert (Hne : is_empty (logger.GetRequestID ctx) = false)
      by (rewrite Hrid; apply resolved_request_id_nonempty).
    apply (WithContext_field log ctx logger.RequestIDKey).
    - apply elem_of_cons. left. reflexivity.
    - apply get_string_nonempty. exact Hne.
    - exact Hne. }
  split; [reflexivity|]. split; [|split; [lia|reflexivity]].
  rewrite Hnow. reflexivity.
Qed.

Lemma api_normal_return_witness :
  let out := main.api fixtures.log0 ptrMetrics (fixtures.respond 404) transport
               fixtures.req42 fixtures.state0 in
  fst out = Ret tt
  /\ RequestsTotal (st_metrics (snd out)) !! ("GET", "/api/hello", "404") = Some 1%nat
  /\ RequestsInFlight (st_metrics (snd out)) = 0%Z
  /\ PanicRecoveries (st_metrics (snd out)) = 0%nat.
Proof.
  intros out.
  pose (hop := TracedLogging_resolve transport fixtures.req42 fixtures.state0).
  pose (rw1 := {| rw_ResponseWriter := transport; rw_addr := length (st_heap (snd hop)) |}).
  pose (s1 := snd (new_responseWriter transport 200 (snd hop))).
  pose (rw2 := {| rw_ResponseWriter := as_writer rw1; rw_addr := length (st_heap s1) |}).
  pose (s_in := snd (Gauge_Inc (snd (new_responseWriter (as_writer rw1) 200 s1)))).
  pose (ctx := fst (fst (match fst hop with
                         | Ret ids => ids
                         | Panic _ => (fixtures.background, EmptyString, EmptyString)
                         end))).
  pose (inner := fixtures.respond 404 (as_writer rw2)
                   (Request_WithContext fixtures.req42 ctx) s_in).
  assert (Hhop : fst hop = Ret (ctx, EmptyString, EmptyString)) by reflexivity.
  assert (Hinner : inner = (Ret tt, snd inner)) by reflexivity.
  destruct (api_normal_return fixtures.log0 (fixtures.respond 404) fixtures.req42
              fixtures.state0 (snd inner) ctx EmptyString EmptyString Hhop Hinner)
    as (Hret & _ & _ & Htotal & _ & Hgauge & Hpanics).
  split; [exact Hret|]. split; [|exact (conj Hgauge Hpanics)].
  subst out. rewrite Htotal. vm_compute. reflexivity.
Defined.

(** ** The trace context of pkg/logger *)

(** X15: [ExtractTraceContext] never yields an empty id.  An inbound id that is not
    empty is taken over as it is; an empty one is replaced by a fresh UUID
    (cut to 16 characters for the trace id); the span id is always a fresh
    one of 8 characters.  The ids shadow whatever the parent context held,
    the tracer's span stays, and one UUID is drawn per generated id. *)
Theorem ExtractTraceContext_ids (ctx : Context) (requestID traceID : string) (s : State) :
  let k1 := if is_empty requestID then 1%nat else 0%nat in
  let k2 := if is_empty traceID then 1%nat else 0%nat in
  exists ctx' s',
    logger.ExtractTraceContext ctx requestID traceID s = (Ret ctx', s')
    /\ logger.GetRequestID ctx' = (if is_empty requestID then fresh s 0 else requestID)
    /\ logger.GetTraceID ctx'
       = (if is_empty traceID then String.substring 0 16 (fresh s k1) else traceID)
    /\ logger.GetSpanID ctx' = String.substring 0 8 (fresh s (k2 + k1))
    /\ is_empty (logger.GetRequestID ctx') = false
    /\ is_empty (logger.GetTraceID ctx') = false
    /\ String.length (logger.GetSpanID ctx') = 8%nat
    /\ ctx_span ctx' = ctx_span ctx
    /\ st_draws s' = (1 + k2 + k1 + st_draws s)%nat.
Proof.
  intros k1 k2. rewrite ExtractTraceContext_run. eexists _, _. split; [reflexivity|].
  subst k1 k2. destruct (is_empty requestID) eqn:Hr, (is_empty traceID) eqn:Ht;
    cbn; rewrite ?Hr, ?Ht; repeat split; reflexivity.
Qed.

(** X16: [NewTraceContext] is [ExtractTraceContext] without inbound ids.  It draws
    three UUIDs; the request id is a whole UUID of 36 characters, the trace
    id its first 16 characters, the ninth of which is the dash of the UUID
    text, and the span id the first 8. *)
Theorem NewTraceContext_ids (ctx : Context) (s : State) :
  exists ctx' s',
    logger.NewTraceContext ctx s = (Ret ctx', s')
    /\ logger.ExtractTraceContext ctx EmptyString EmptyString s = (Ret ctx', s')
    /\ String.length (logger.GetRequestID ctx') = 36%nat
    /\ String.length (logger.GetTraceID ctx') = 16%nat
    /\ String.get 8 (logger.GetTraceID ctx') = Some "-"%char
    /\ String.length (logger.GetSpanID ctx') = 8%nat
    /\ st_draws s' = (3 + st_draws s)%nat.
Proof.
  eexists _, _. split; [reflexivity|]. repeat split; reflexivity.
Qed.

(** X17: [WithSpanID] and [WithTraceID] replace the one id and keep the others: a
    context derived with a new span id has the parent's request id and trace
    id, and the tracer's span stays in both cases. *)
Theorem WithSpanID_WithTraceID_override (ctx : Context) (id : string) :
  (logger.GetSpanID (logger.WithSpanID ctx id) = id
   /\ logger.GetTraceID (logger.WithSpanID ctx id) = logger.GetTraceID ctx
   /\ logger.GetRequestID (logger.WithSpanID ctx id) = logger.GetRequestID ctx
   /\ ctx_span (logger.WithSpanID ctx id) = ctx_span ctx)
  /\ (logger.GetTraceID (logger.WithTraceID ctx id) = id
      /\ logger.GetSpanID (logger.WithTraceID ctx id) = logger.GetSpanID ctx
      /\ logger.GetRequestID (logger.WithTraceID ctx id) = logger.GetRequestID ctx
      /\ ctx_span (logger.WithTraceID ctx id) = ctx_span ctx).
Proof. repeat split; reflexivity. Qed.

(** ** What the logger writes *)

Lemma add_ctx_field_sound (ctx : Context) (key : string) (event : zerolog_Logger)
    (kv : string * Any) :
  kv ∈ zl_context (logger.add_ctx_field ctx key key event) ->
  kv ∈ zl_context event
  \/ exists v, kv = (key, AStr v)
               /\ context_Value ctx key = Some (AStr v) /\ is_empty v = false.
Proof.
  unfold logger.add_ctx_field.
  destruct (context_Value ctx key) as [[v| |]|] eqn:Hv; try (intros Hin; left; exact Hin).
  destruct (is_empty v) eqn:Hne; [intros Hin; left; exact Hin|].
  cbn [zerolog_Str zl_context]. intros Hin. apply elem_of_app in Hin as [Hin|Hin].
  - left. exact Hin.
  - right. exists v. apply list_elem_of_singleton in Hin. subst kv. repeat split.
    exact Hne.
Qed.

(** X18: [WithContext] adds correlation fields only: every field of the logger it
    returns was a field of the logger already or is one of the four
    correlation keys with the string the context holds under that key, which
    is not empty.  A value that is missing, empty or not a string gives no
    field. *)
Theorem WithContext_sound (l : logger.Logger) (ctx : Context) (kv : string * Any) :
  kv ∈ zl_context (logger.WithContext l ctx) ->
  kv ∈ zl_context (logger.zlog l)
  \/ exists key v,
       kv = (key, AStr v)
       /\ key ∈ [logger.RequestIDKey; logger.TraceIDKey; logger.SpanIDKey;
                 logger.UserIDKey]
       /\ context_Value ctx key = Some (AStr v) /\ is_empty v = false.
Proof.
  unfold logger.WithContext. intros Hin.
  apply add_ctx_field_sound in Hin as [Hin|(v & -> & Hv & Hne)].
  2:{ right. exists logger.UserIDKey, v. repeat split; [|exact Hv|exact Hne].
      do 3 (apply elem_of_cons; right). apply elem_of_cons. left. reflexivity. }
  apply add_ctx_field_sound in Hin as [Hin|(v & -> & Hv & Hne)].
  2:{ right. exists logger.SpanIDKey, v. repeat split; [|exact Hv|exact Hne].
      do 2 (apply elem_of_cons; right). apply elem_of_cons. left. reflexivity. }
  apply add_ctx_field_sound in Hin as [Hin|(v & -> & Hv & Hne)].
  2:{ right. exists logger.TraceIDKey, v. repeat split; [|exact Hv|exact Hne].
      apply elem_of_cons; right. apply elem_of_cons. left. reflexivity. }
  apply add_ctx_field_sound in Hin as [Hin|(v & -> & Hv & Hne)].
  2:{ right. exists logger.RequestIDKey, v. repeat split; [|exact Hv|exact Hne].
      apply elem_of_cons. left. reflexivity. }
  left. exact Hin.
Qed.

Lemma WithContext_sound_witness :
  let ctx := context_WithValue
               (context_WithValue fixtures.background logger.RequestIDKey (AStr "r-1"))
               logger.UserIDKey (AInt 7) in
  zl_context (logger.WithContext fixtures.log0 ctx) = [("request_id", AStr "r-1")]
  /\ ((("request_id", AStr "r-1") : string * Any) ∈ zl_context (logger.zlog fixtures.log0)
      \/ exists key v,
           (("request_id", AStr "r-1") : string * Any) = (key, AStr v)
           /\ key ∈ [logger.RequestIDKey; logger.TraceIDKey; logger.SpanIDKey;
                     logger.UserIDKey]
           /\ context_Value ctx key = Some (AStr v) /\ is_empty v = false).
Proof.
  intros ctx. split; [reflexivity|].
  apply (WithContext_sound fixtures.log0 ctx).
  apply list_elem_of_singleton. reflexivity.
Defined.

Lemma substring_length_le (n : nat) (text : string) :
  String.length (String.substring 0 n text) <= n.
Proof.
  revert text. induction n as [|n IH]; intros [|c text]; cbn; try lia.
  specialize (IH text). lia.
Qed.




(** [Error], [ErrorWithStack] and [Panic] each return normally and hand
    exactly one error-level record to the logger; [Panic] does not panic.
    The record has an "error" field exactly when the error is not nil;
    [Error] adds the caller's file and line as "error_location"; the
    "stacktrace" of the other two is the head of the stack, at most 4096
    long. *)
Theorem error_helpers_record (l : logger.Logger) (ctx : Context) (err : option string)
    (recovered : Any) (msg file : string) (line : Z) (s : State) :
  let base := zl_context (logger.WithContext l ctx) in
  let error_field := match err with Some text => [("error", AErr text)] | None => [] end in
  let stack := String.substring 0 4096 (st_stack s) in
  let logged fields :=
    (Ret tt,
     upd_logs (fun evs => evs ++ [{| ev_level := ErrorLevel; ev_msg := msg;
                                     ev_fields := fields |}]) s) in
  logger.Error l ctx err msg (file, line) s
  = logged (base ++ error_field ++ [("error_location", AStr (file +:+ ":" +:+ Sprintf_d line))])
  /\ logger.ErrorWithStack l ctx err msg s
     = logged (base ++ error_field ++ [("stacktrace", AStr stack)])
  /\ logger.Panic l ctx recovered msg s
     = logged (base ++ [("panic", recovered); ("stacktrace", AStr stack)])
  /\ String.length stack <= 4096.
Proof.
  intros base error_field stack logged. subst base error_field stack logged.
  split; [|split; [|split]].
  - unfold logger.Error. run. destruct err; cbn [zerolog_Err zerolog_Str zl_context];
      rewrite <- ?app_assoc; reflexivity.
  - unfold logger.ErrorWithStack. run.
    destruct err; cbn [zerolog_Err zerolog_Str zl_context];
      rewrite <- ?app_assoc; reflexivity.
  - unfold logger.Panic. run. cbn [zerolog_Interface zerolog_Str zl_context].
    rewrite <- app_assoc. reflexivity.
  - apply substring_length_le.
Qed.



(** ** Round trips of the stamped headers *)

Lemma Logging_round_trip_witness :
  let hop := Logging_resolve transport fixtures.bare fixtures.state0 in
  resolved_ids id (fst (Logging_resolve transport (fixtures.downstream (st_resp (snd hop)))
                          (snd hop)))
  = resolved_ids id (fst hop)
  /\ resolved_ids id (fst hop) <> None.
Proof.
  exact (Logging_round_trip fixtures.bare
           (fixtures.downstream
              (st_resp (snd (Logging_resolve transport fixtures.bare fixtures.state0))))
           fixtures.state0
           (snd (Logging_resolve transport fixtures.bare fixtures.state0)) eq_refl).
Defined.

Lemma TracedLogging_round_trip_request_id_witness :
  let hop := TracedLogging_resolve transport fixtures.bare fixtures.state0 in
  option_map fst
    (resolved_ids (fun ids => fst (fst ids))
       (fst (TracedLogging_resolve transport (fixtures.downstream (st_resp (snd hop)))
               (snd hop))))
  = option_map fst (resolved_ids (fun ids => fst (fst ids)) (fst hop)).
Proof.
  exact (TracedLogging_round_trip_request_id fixtures.bare
           (fixtures.downstream
              (st_resp (snd (TracedLogging_resolve transport fixtures.bare
                               fixtures.state0))))
           fixtures.state0
           (snd (TracedLogging_resolve transport fixtures.bare fixtures.state0)) eq_refl).
Defined.

Lemma TracedLogging_round_trip_when_stamped_witness :
  let hop := TracedLogging_resolve transport fixtures.traced fixtures.state0 in
  resolved_ids (fun ids => fst (fst ids))
    (fst (TracedLogging_resolve transport (fixtures.downstream (st_resp (snd hop)))
            (snd hop)))
  = resolved_ids (fun ids => fst (fst ids)) (fst hop).
Proof.
  exact (TracedLogging_round_trip_when_stamped fixtures.traced
           (fixtures.downstream
              (st_resp (snd (TracedLogging_resolve transport fixtures.traced
                               fixtures.state0))))
           fixtures.state0
           (snd (TracedLogging_resolve transport fixtures.traced fixtures.state0))
           eq_refl eq_refl eq_refl).
Defined.

(** ** pkg/tracing *)

(** X21: [GetTraceID] and [GetSpanID] return the empty string exactly when the
    span of the context has no valid id, and the 32 or 16 characters of its
    hexadecimal text otherwise; a context without span gives two empty
    strings. *)
Theorem tracing_ids_shape (ctx : Context) :
  String.length (tracing.GetTraceID ctx)
  = (if HasTraceID (ctx_span ctx) then 32%nat else 0%nat)
  /\ String.length (tracing.GetSpanID ctx)
     = (if HasSpanID (ctx_span ctx) then 16%nat else 0%nat)
  /\ (is_empty (tracing.GetTraceID ctx) = negb (HasTraceID (ctx_span ctx)))
  /\ (is_empty (tracing.GetSpanID ctx) = negb (HasSpanID (ctx_span ctx)))
  /\ (ctx_span ctx = noSpan ->
      tracing.GetTraceID ctx = EmptyString /\ tracing.GetSpanID ctx = EmptyString).
Proof.
  unfold tracing.GetTraceID, tracing.GetSpanID.
  split; [destruct (HasTraceID _); reflexivity|].
  split; [destruct (HasSpanID _); reflexivity|].
  split; [destruct (HasTraceID _); reflexivity|].
  split; [destruct (HasSpanID _); reflexivity|].
  intros ->. split; reflexivity.
Qed.

(** ** Configuration from the environment *)

Lemma string_of_uint_unsigned (d : Decimal.uint) :
  d <> Decimal.Nil ->
  main.strconv_Atoi (NilZero.string_of_uint d)
  = (if ((- 2 ^ 63 <=? Z.of_uint d) && (Z.of_uint d <? 2 ^ 63))%Z
     then Some (Z.of_uint d) else None).
Proof.
  intros Hd. unfold main.strconv_Atoi.
  assert (Hparse : NilZero.uint_of_string (NilZero.string_of_uint d) = Some d)
    by (apply NilZero.usu; exact Hd).
  destruct d; try contradiction; cbn [NilZero.string_of_uint NilEmpty.string_of_uint] in *;
    rewrite Hparse; reflexivity.
Qed.

Lemma Atoi_Sprintf_d (n : Z) :
  (- 2 ^ 63 <= n < 2 ^ 63)%Z -> main.strconv_Atoi (Sprintf_d n) = Some n.
Proof.
  intros Hrange. unfold Sprintf_d.
  assert (Hok : ((- 2 ^ 63 <=? n) && (n <? 2 ^ 63))%Z = true).
  { apply andb_true_intro. split; [apply Z.leb_le|apply Z.ltb_lt]; lia. }
  destruct n as [|p|p].
  - reflexivity.
  - cbn [Z.to_int NilZero.string_of_int].
    rewrite string_of_uint_unsigned by apply DecimalPos.Unsigned.to_uint_nonnil.
    unfold Z.of_uint. rewrite DecimalPos.Unsigned.of_to. cbn [Z.of_N].
    rewrite Hok. reflexivity.
  - cbn [Z.to_int NilZero.string_of_int]. unfold main.strconv_Atoi.
    change ("-" +:+ NilZero.string_of_uint (Pos.to_uint p))
      with (String "-"%char (NilZero.string_of_uint (Pos.to_uint p))).
    cbv beta iota.
    rewrite NilZero.usu by apply DecimalPos.Unsigned.to_uint_nonnil.
    unfold Z.of_uint. rewrite DecimalPos.Unsigned.of_to. cbn [Z.of_N].
    change (- Z.pos p)%Z with (Z.neg p). rewrite Hok. reflexivity.
Qed.

(** X23: [getEnvAsInt] reads back what [%d] printed: a variable set to the decimal
    text of an integer that fits 64 bits gives that integer, whatever the
    default is.  A variable that is not set, or set to the empty string, gives
    the default. *)
Theorem getEnvAsInt_reads_decimal (env : gmap string string) (key : string)
    (n defaultValue : Z) :
  (- 2 ^ 63 <= n < 2 ^ 63)%Z ->
  main.getEnvAsInt (<[key := Sprintf_d n]> env) key defaultValue = n
  /\ main.getEnvAsInt (delete key env) key defaultValue = defaultValue
  /\ main.getEnvAsInt (<[key := EmptyString]> env) key defaultValue = defaultValue.
Proof.
  intros Hrange. unfold main.getEnvAsInt, main.Getenv. split; [|split].
  - cbv zeta. rewrite lookup_insert_eq. cbn [default id].
    pose proof (Atoi_Sprintf_d n Hrange) as Hparse. rewrite Hparse.
    destruct (Sprintf_d n); [discriminate Hparse|reflexivity].
  - rewrite lookup_delete_eq. reflexivity.
  - rewrite lookup_insert_eq. reflexivity.
Qed.

Lemma getEnvAsInt_reads_decimal_witness :
  main.getEnvAsInt (<["DB_PORT" := "5433"]> ∅) "DB_PORT" 5432 = 5433%Z
  /\ main.getEnvAsInt (delete "DB_PORT" ∅) "DB_PORT" 5432 = 5432%Z
  /\ main.getEnvAsInt (<["DB_PORT" := EmptyString]> ∅) "DB_PORT" 5432 = 5432%Z.
Proof.
  assert (Hrange : (- 2 ^ 63 <= 5433 < 2 ^ 63)%Z) by lia.
  exact (getEnvAsInt_reads_decimal ∅ "DB_PORT" 5433 5432 Hrange).
Defined.

(** X24: [getEnvOrDefault] gives the variable's value when it is set and not
    empty, and the default otherwise; so with a default that is not empty the
    result is never empty: a variable set to the empty string cannot blank a
    setting. *)
Theorem getEnvOrDefault_never_blank (env : gmap string string) (key defaultValue : string) :
  is_empty defaultValue = false ->
  is_empty (main.getEnvOrDefault env key defaultValue) = false
  /\ (forall value, env !! key = Some value -> is_empty value = false ->
      main.getEnvOrDefault env key defaultValue = value)
  /\ (env !! key = None \/ env !! key = Some EmptyString ->
      main.getEnvOrDefault env key defaultValue = defaultValue).
Proof.
  intros Hdefault. unfold main.getEnvOrDefault, main.Getenv. split; [|split].
  - destruct (env !! key) as [value|]; cbn [default from_option id is_empty];
      [|exact Hdefault].
    destruct (is_empty value) eqn:Hvalue; [exact Hdefault|exact Hvalue].
  - intros value -> Hvalue. cbn [default from_option id]. rewrite Hvalue. reflexivity.
  - intros [-> | ->]; reflexivity.
Qed.

Lemma getEnvOrDefault_never_blank_witness :
  is_empty (main.getEnvOrDefault (<["PORT" := EmptyString]> ∅) "PORT" "8080") = false
  /\ main.getEnvOrDefault (<["PORT" := EmptyString]> ∅) "PORT" "8080" = "8080".
Proof.
  destruct (getEnvOrDefault_never_blank (<["PORT" := EmptyString]> ∅) "PORT" "8080" eq_refl)
    as (Hne & _ & Hdefault).
  split; [exact Hne|]. apply Hdefault. right. apply lookup_insert_eq.
Defined.

(** ** The all-zero trace id *)

Lemma byte_at_testbit (n : nat) (x : N) (i : nat) (j : N) :
  N.testbit (byte_at n x i) j
  = N.testbit x (j + 8 * N.of_nat (n - 1 - i)) && (j <? 8)%N.
Proof.
  unfold byte_at. rewrite N.land_spec, N.shiftr_spec by apply N.le_0_l.
  f_equal. change 255%N with (N.ones 8). destruct (N.ltb_spec j 8).
  - apply N.ones_spec_low. assumption.
  - apply N.ones_spec_high. assumption.
Qed.

Lemma bytes_all_zero (n : nat) (x : N) :
  existsb nonzero (bytes_of n x) = false
  <-> N.land x (N.ones (8 * N.of_nat n)) = 0%N.
Proof.
  unfold bytes_of. split.
  - intros Hnone. apply N.bits_inj_0. intros b. rewrite N.land_spec.
    destruct (N.ltb_spec b (8 * N.of_nat n)) as [Hlt|Hge].
    2:{ rewrite N.ones_spec_high by assumption. apply andb_false_r. }
    rewrite N.ones_spec_low, andb_true_r by assumption.
    pose (k := N.to_nat (b / 8)).
    assert (Hk : (k < n)%nat).
    { assert (Hdiv : (b / 8 < N.of_nat n)%N)
        by (apply N.Div0.div_lt_upper_bound; lia).
      subst k. lia. }
    pose (i := (n - 1 - k)%nat).
    assert (Hzero : nonzero (byte_at n x i) = false).
    { destruct (nonzero (byte_at n x i)) eqn:Hnz; [|reflexivity].
      assert (Hex : existsb nonzero (map (byte_at n x) (seq 0 n)) = true).
      { apply existsb_exists. exists (byte_at n x i). split; [|exact Hnz].
        apply in_map. apply in_seq. subst i. lia. }
      rewrite Hex in Hnone. discriminate. }
    unfold nonzero in Hzero. apply negb_false_iff, N.eqb_eq in Hzero.
    pose proof (byte_at_testbit n x i (b mod 8)) as Hbit.
    rewrite Hzero, N.bits_0 in Hbit.
    assert (Hpos : (b mod 8 + 8 * N.of_nat (n - 1 - i) = b)%N).
    { subst i. replace (n - 1 - (n - 1 - k))%nat with k by lia.
      subst k. rewrite N2Nat.id. rewrite (N.div_mod b 8) at 3 by lia. lia. }
    rewrite Hpos in Hbit.
    assert (Hlow : (b mod 8 <? 8)%N = true)
      by (apply N.ltb_lt; apply N.mod_lt; lia).
    rewrite Hlow, andb_true_r in Hbit. symmetry. exact Hbit.
  - intros Hzero. apply not_true_is_false. intros Hex.
    apply existsb_exists in Hex as (byte & Hin & Hnz).
    apply in_map_iff in Hin as (i & <- & Hi). apply in_seq in Hi.
    unfold nonzero in Hnz. apply negb_true_iff, N.eqb_neq in Hnz. apply Hnz.
    apply N.bits_inj_0. intros j. rewrite byte_at_testbit.
    destruct (N.ltb_spec j 8) as [Hj|Hj]; [|apply andb_false_r].
    rewrite andb_true_r.
    pose proof (f_equal (fun y => N.testbit y (j + 8 * N.of_nat (n - 1 - i))) Hzero)
      as Hbit.
    cbn beta in Hbit. rewrite N.land_spec, N.bits_0 in Hbit.
    rewrite N.ones_spec_low, andb_true_r in Hbit by lia. exact Hbit.
Qed.

(** X22: A span whose trace id is all zero counts as having none: [GetTraceID]
    returns the empty string exactly when the sixteen bytes of the id are
    zero, and then [TracedLogging] takes the trace id from the [X-Trace-ID]
    header, if there is one, and generates it otherwise. *)
Theorem zero_trace_id_is_no_trace (r : Request) (s : State) :
  let span := ctx_span (req_Context r) in
  (tracing.GetTraceID (req_Context r) = EmptyString
   <-> N.land (sc_TraceID span) (N.ones 128) = 0%N)
  /\ (N.land (sc_TraceID span) (N.ones 128) = 0%N ->
      exists ctx otelTraceID otelSpanID,
        fst (TracedLogging_resolve transport r s) = Ret (ctx, otelTraceID, otelSpanID)
        /\ otelTraceID = Header_Get (Header r) "X-Trace-ID"
        /\ logger.GetTraceID ctx
           = (if is_empty (Header_Get (Header r) "X-Trace-ID")
              then String.substring 0 16
                     (fresh s (if is_empty (Header_Get (Header r) "X-Request-ID")
                               then 1 else 0))
              else Header_Get (Header r) "X-Trace-ID")).
Proof.
  intros span.
  assert (Hiff : tracing.GetTraceID (req_Context r) = EmptyString
                 <-> N.land (sc_TraceID span) (N.ones 128) = 0%N).
  { rewrite <- (bytes_all_zero 16 (sc_TraceID span)).
    unfold tracing.GetTraceID. fold span. change (existsb nonzero _) with (HasTraceID span).
    destruct (HasTraceID span); split; intros H; try reflexivity; discriminate H. }
  split; [exact Hiff|]. intros Hzero.
  assert (Hnone : HasTraceID span = false).
  { apply (bytes_all_zero 16 (sc_TraceID span)). exact Hzero. }
  destruct (TracedLogging_resolve_run r s) as (ctx & s' & Hrun & _ & Htid & _).
  fold span in Hrun, Htid. rewrite Hnone in Hrun, Htid.
  rewrite Hrun. eexists ctx, _, _. split; [reflexivity|]. split; [reflexivity|].
  exact Htid.
Qed.
